(** * Bucko: compose-URL resolution, dist-git branch resolution and the
      publication of build metadata.

    A shallow embedding of [src/bucko/__init__.py] and the properties of it
    that the specification states.

    Conventions of the embedding.
    - Python text is a Rocq [string] of code points below 256 (Latin-1), as
      [json.loads] decodes it; [upper] and [lower] follow Python on these.
    - A Python call that can raise returns an [outcome]: [Ok v] for a normal
      return, [Raise e] for an uncaught exception of class [e].
    - A run is a function of the [world]: the files that the program writes
      or has the compose write, and the lines logged (a line of [log.info]
      is recorded as its template and the values formatted into it).
      [parse_ci_message] and [compose_url_from_env] are given twice: as the
      result they compute, and as the run that also logs, which [main] uses
      and which returns that result ([parse_ci_message_logged_run]). *)

From Stdlib Require Import ZArith Ascii String List DecimalString Lia.
From stdpp Require Import base option list gmap fin_maps strings sorting.

Set Warnings "-register-all".

(** ** Exceptions and outcomes *)

(** The exception classes that occur; [CollaboratorError] stands for an
    error raised inside a collaborator, [Unmodelled] for a behaviour of the
    Python library that this file does not describe. *)
Inductive exn : Type :=
| KeyError
| TypeError
| ValueError
| AttributeError
| OverflowError
| IOError
| UnicodeEncodeError
| SystemExit (message : string)
| CollaboratorError (stage : string)
| Unmodelled.

Inductive outcome (A : Type) : Type :=
| Ok (a : A)
| Raise (e : exn).
Arguments Ok {A} a.
Arguments Raise {A} e.

#[global] Instance outcome_ret : MRet outcome := λ A, Ok.

#[global] Instance outcome_bind : MBind outcome := λ A B k c,
  match c with
  | Ok a => k a
  | Raise e => Raise e
  end.

#[global] Instance outcome_fmap : FMap outcome := λ A B f c,
  match c with
  | Ok a => Ok (f a)
  | Raise e => Raise e
  end.


(** ** Text *)

Module PyStr.

Definition code (c : ascii) : N := N_of_ascii c.

(** The letters that have another case among the code points below 256:
    a to z and A to Z, and the letters of Latin-1, whose small forms are the
    codes 224 to 254 without 247 (the division sign) and whose capitals lie
    32 below, at 192 to 222 without 215 (the multiplication sign). *)
Definition is_small (n : N) : bool :=
  (((97 <=? n) && (n <=? 122))
   || ((224 <=? n) && (n <=? 254) && negb (n =? 247)))%N.

Definition is_capital (n : N) : bool :=
  (((65 <=? n) && (n <=? 90))
   || ((192 <=? n) && (n <=? 222) && negb (n =? 215)))%N.

(** The micro sign (181) and y with diaeresis (255) have their capitals
    above 255, and the capital of sharp s (223) is two letters in Python 3:
    [upper_char] leaves them, and a statement about the uppercased text
    excludes them with [capitals_in_range]. *)
Definition upper_char (c : ascii) : ascii :=
  if is_small (code c) then ascii_of_N (code c - 32) else c.

Definition lower_char (c : ascii) : ascii :=
  if is_capital (code c) then ascii_of_N (code c + 32) else c.

Fixpoint map (f : ascii → ascii) (s : string) : string :=
  match s with
  | EmptyString => EmptyString
  | String c r => String (f c) (map f r)
  end.

(** [s.upper()] and [s.lower()] *)
Definition upper : string → string := map upper_char.
Definition lower : string → string := map lower_char.

(** All characters of [s] are ASCII (codes below 128). *)
Fixpoint is_ascii (s : string) : bool :=
  match s with
  | EmptyString => true
  | String c r => (code c <? 128)%N && is_ascii r
  end.

(** No character of [s] has its capital outside the code points below 256. *)
Fixpoint capitals_in_range (s : string) : bool :=
  match s with
  | EmptyString => true
  | String c r =>
      negb ((code c =? 181) || (code c =? 223) || (code c =? 255))%N
      && capitals_in_range r
  end.

Fixpoint char_in (c : ascii) (s : string) : bool :=
  match s with
  | EmptyString => false
  | String d r => Ascii.eqb c d || char_in c r
  end.

(** [s.partition(sep)] for a one-character separator, [None] when the
    separator does not occur. *)
Fixpoint cut (sep : ascii) (s : string) : option (string * string) :=
  match s with
  | EmptyString => None
  | String c r =>
      if Ascii.eqb c sep then Some (EmptyString, r)
      else match cut sep r with
           | Some (a, b) => Some (String c a, b)
           | None => None
           end
  end.

(** [s.split(sep, maxsplit)] for a one-character separator. *)
Fixpoint split (sep : ascii) (maxsplit : nat) (s : string) : list string :=
  match maxsplit with
  | O => [s]
  | S n =>
      match cut sep s with
      | None => [s]
      | Some (a, r) => a :: split sep n r
      end
  end.

(** [s.startswith(p)] *)
Fixpoint startswith (s p : string) {struct p} : bool :=
  match p, s with
  | EmptyString, _ => true
  | String c p', String d s' => Ascii.eqb d c && startswith s' p'
  | String _ _, EmptyString => false
  end.

(** [s.endswith(p)] *)
Definition endswith (s p : string) : bool :=
  startswith (String.rev s) (String.rev p).

(** [str(n)] for an integer. *)
Definition of_Z (n : Z) : string := NilZero.string_of_int (Z.to_int n).

(** White space as [float] strips it from text decoded by [json.loads]. *)
Definition is_space (c : ascii) : bool :=
  let n := code c in
  (((9 <=? n) && (n <=? 13)) || ((28 <=? n) && (n <=? 32))
   || (n =? 133) || (n =? 160))%N.

Fixpoint lstrip (s : string) : string :=
  match s with
  | String c r => if is_space c then lstrip r else s
  | EmptyString => EmptyString
  end.

Definition rstrip (s : string) : string :=
  String.rev (lstrip (String.rev s)).

Definition strip (s : string) : string := rstrip (lstrip s).

End PyStr.

(** ** Floats: [float(text)] and [int(float)]

    A finite binary64 value is kept exactly, as sign, integer significand and
    binary exponent: [FFinite neg m e] is (-1)^neg * m * 2^e. *)

Inductive pyfloat : Type :=
| FFinite (neg : bool) (m : Z) (e : Z)
| FInf (neg : bool)
| FNaN.

Module PyFloat.
Local Open Scope Z_scope.

Definition digit (c : ascii) : option Z :=
  let n := Z.of_N (PyStr.code c) in
  if (48 <=? n) && (n <=? 57) then Some (n - 48) else None.

(** Reads a run of decimal digits: the number read on top of [acc], how
    many digits there were, and the rest of the text. *)
Fixpoint digits (s : string) (acc : Z) (count : nat) : Z * nat * string :=
  match s with
  | String c r =>
      match digit c with
      | Some d => digits r (10 * acc + d) (S count)
      | None => (acc, count, s)
      end
  | EmptyString => (acc, count, s)
  end.

Definition sign (s : string) : bool * string :=
  match s with
  | String "-" r => (true, r)
  | String "+" r => (false, r)
  | _ => (false, s)
  end.

(** A decimal literal [digits [. digits] [(e|E) [sign] digits]] with at
    least one digit in the significand: the pair [(m, e)] stands for
    m * 10^e. *)
Definition decimal (s : string) : option (Z * Z) :=
  let '(ip, ni, s1) := digits s 0 O in
  let '(m, nf, s2) :=
    match s1 with
    | String "." r => digits r ip O
    | _ => (ip, O, s1)
    end in
  if (ni + nf =? 0)%nat then None
  else match s2 with
       | EmptyString => Some (m, - Z.of_nat nf)
       | String c r =>
           if PyStr.char_in c "eE" then
             let '(eneg, r1) := sign r in
             let '(ev, ne, r2) := digits r1 0 O in
             if (ne =? 0)%nat then None
             else match r2 with
                  | EmptyString =>
                      Some (m, (if eneg then - ev else ev) - Z.of_nat nf)
                  | String _ _ => None
                  end
           else None
       end.

(** Quotient rounded to the nearest integer, ties to even. *)
Definition round_half_even (num den : Z) : Z :=
  let q := num / den in
  let r := num mod den in
  match 2 * r ?= den with
  | Lt => q
  | Gt => q + 1
  | Eq => if Z.even q then q else q + 1
  end.

(** num / (den * 2^k) as a fraction of integers. *)
Definition scaled (num den k : Z) : Z * Z :=
  if 0 <=? k then (num, den * 2 ^ k) else (num * 2 ^ (- k), den).

(** The binary64 value nearest to num/den (num >= 0, den > 0): 53 bits of
    significand, exponent at least -1074, infinity from 2^1024 on. *)
Definition nearest (neg : bool) (num den : Z) : pyfloat :=
  if num =? 0 then FFinite neg 0 0
  else
    let c := Z.log2 num - Z.log2 den - 52 in
    let '(n0, d0) := scaled num den c in
    let k0 := if n0 / d0 <? 2 ^ 52 then c - 1 else c in
    let k := Z.max k0 (-1074) in
    let '(n1, d1) := scaled num den k in
    let m := round_half_even n1 d1 in
    if (0 <=? k) && (2 ^ 1024 <=? m * 2 ^ k) then FInf neg
    else FFinite neg m k.

(** [float(s)] *)
Definition of_string (s : string) : outcome pyfloat :=
  let '(neg, u) := sign (PyStr.strip s) in
  let l := PyStr.lower u in
  if String.eqb l "inf" || String.eqb l "infinity" then Ok (FInf neg)
  else if String.eqb l "nan" then Ok FNaN
  else match decimal u with
       | Some (m, e) =>
           Ok (if 0 <=? e then nearest neg (m * 10 ^ e) 1
               else nearest neg m (10 ^ (- e)))
       | None => Raise ValueError
       end.

(** [int(f)]: truncation towards zero. *)
Definition to_int (f : pyfloat) : outcome Z :=
  match f with
  | FFinite neg m e =>
      let a := if 0 <=? e then m * 2 ^ e else m / 2 ^ (- e) in
      Ok (if neg then - a else a)
  | FInf _ => Raise OverflowError
  | FNaN => Raise ValueError
  end.

End PyFloat.

(** ** Python values, as [json.loads] and the collaborators produce them *)

Inductive value : Type :=
| VNone
| VBool (b : bool)
| VInt (n : Z)
| VFloat (f : pyfloat)
| VStr (s : string)
| VList (l : list value)
| VDict (d : gmap string value).

(** [obj[key]] for a text key: only a mapping can be indexed by text, and a
    mapping without the key raises [KeyError]. *)
Definition getitem (obj : value) (key : string) : outcome value :=
  match obj with
  | VDict d =>
      match d !! key with
      | Some v => Ok v
      | None => Raise KeyError
      end
  | _ => Raise TypeError
  end.

(** [str(v)] for the scalars; the text of floats and containers follows
    Python's [repr] and is not modelled here. *)
Definition str_scalar (v : value) : option string :=
  match v with
  | VNone => Some "None"
  | VBool true => Some "True"
  | VBool false => Some "False"
  | VInt n => Some (PyStr.of_Z n)
  | VStr s => Some s
  | VFloat _ | VList _ | VDict _ => None
  end.

Example float_3_0 :
  PyFloat.of_string "3.0" ≫= PyFloat.to_int = Ok 3%Z.
Proof. vm_compute. reflexivity. Qed.

Example float_2 : PyFloat.of_string " 2 " ≫= PyFloat.to_int = Ok 2%Z.
Proof. vm_compute. reflexivity. Qed.

Example float_rounds :
  PyFloat.of_string "9007199254740993" ≫= PyFloat.to_int
  = Ok 9007199254740992%Z.
Proof. vm_compute. reflexivity. Qed.

Example float_rounds_up :
  PyFloat.of_string "0.99999999999999999999" ≫= PyFloat.to_int = Ok 1%Z.
Proof. vm_compute. reflexivity. Qed.

Example float_foo : PyFloat.of_string "foo" = Raise ValueError.
Proof. vm_compute. reflexivity. Qed.

Example float_huge :
  PyFloat.of_string "1e400" ≫= PyFloat.to_int = Raise OverflowError.
Proof. vm_compute. reflexivity. Qed.

Example split_example :
  PyStr.split "-" 2 "ceph-3.0-rhel-7" = ["ceph"; "3.0"; "rhel-7"].
Proof. reflexivity. Qed.

(** ** The [%] operator on text: [template % args]

    The conversions that the program's templates use are modelled: [%%], and
    [s], [d], [i], [u] on scalars, keyed ([%(name)s]) against a mapping or
    positional against a tuple.  Flags, widths, precisions, the other
    conversion types and a mapping taken as one positional argument are
    outside the model: there the result is [Raise Unmodelled], about which
    nothing is stated. *)

Module PyFormat.

Inductive args : Type :=
| Mapping (d : gmap string value)
| Tuple (l : list value).

(** Where the scanner is in the template: in literal text, just after a
    [%], inside a parenthesised key, or after a key whose value is taken. *)
Inductive state : Type :=
| SText
| SPercent
| SKey (depth : nat) (rkey : string)
| SConv (v : value).

Definition convert (c : ascii) (v : value) : outcome string :=
  if Ascii.eqb c "s" then
    match str_scalar v with
    | Some s => Ok s
    | None => Raise Unmodelled
    end
  else
    match v with
    | VInt n => Ok (PyStr.of_Z n)
    | VBool b => Ok (if b then "1" else "0")
    | VFloat f => PyStr.of_Z <$> PyFloat.to_int f
    | VNone | VStr _ | VList _ | VDict _ => Raise TypeError
    end.

(** One conversion character [c], for the value [v] when the directive had
    a key: the text it produces and the positional arguments left. *)
Definition directive (a : args) (rest : list value) (keyed : option value)
    (c : ascii) : outcome (string * list value) :=
  if Ascii.eqb c "%" then Ok ("%", rest)
  else if PyStr.char_in c "sdiu" then
    match keyed with
    | Some v => s ← convert c v; Ok (s, rest)
    | None =>
        match a with
        | Mapping _ => Raise Unmodelled
        | Tuple _ =>
            match rest with
            | v :: rest' => s ← convert c v; Ok (s, rest')
            | [] => Raise TypeError
            end
        end
    end
  else if PyStr.char_in c "#0- +*.123456789hlLrcoxXeEfFgG" then
    Raise Unmodelled
  else Raise ValueError.

Fixpoint scan (a : args) (rest : list value) (st : state) (s : string)
    : outcome string :=
  match s with
  | EmptyString =>
      match st with
      | SText =>
          match a, rest with
          | Tuple _, _ :: _ => Raise TypeError
          | _, _ => Ok EmptyString
          end
      | SPercent | SKey _ _ | SConv _ => Raise ValueError
      end
  | String c r =>
      match st with
      | SText =>
          if Ascii.eqb c "%" then scan a rest SPercent r
          else String c <$> scan a rest SText r
      | SPercent =>
          if Ascii.eqb c "(" then
            match a with
            | Mapping _ => scan a rest (SKey 0 EmptyString) r
            | Tuple _ => Raise TypeError
            end
          else
            '(out, rest') ← directive a rest None c;
            String.app out <$> scan a rest' SText r
      | SKey depth rkey =>
          if Ascii.eqb c ")" then
            match depth with
            | O =>
                match a with
                | Mapping d =>
                    match d !! String.rev rkey with
                    | Some v => scan a rest (SConv v) r
                    | None => Raise KeyError
                    end
                | Tuple _ => Raise TypeError
                end
            | S depth' => scan a rest (SKey depth' (String c rkey)) r
            end
          else if Ascii.eqb c "(" then
            scan a rest (SKey (S depth) (String c rkey)) r
          else scan a rest (SKey depth (String c rkey)) r
      | SConv v =>
          '(out, rest') ← directive a rest (Some v) c;
          String.app out <$> scan a rest' SText r
      end
  end.

(** [template % args] *)
Definition format (template : string) (a : args) : outcome string :=
  scan a (match a with Tuple l => l | Mapping _ => [] end) SText template.

End PyFormat.

(** [template % args] when [template] may be [None]: [None % mapping] is a
    [TypeError]. *)
Definition py_mod (template : option string) (a : PyFormat.args)
    : outcome string :=
  match template with
  | Some t => PyFormat.format t a
  | None => Raise TypeError
  end.

(** ** ComposeURLResolver *)

(** [branch.split('-', 2)]: only text has a [split]. *)
Definition split_branch (branch : value) : outcome (list string) :=
  match branch with
  | VStr s => Ok (PyStr.split "-" 2 s)
  | _ => Raise AttributeError
  end.

(** The tuple assignment [(_, version, distro) = parts]. *)
Definition unpack3 (parts : list string) : outcome (string * string * string) :=
  match parts with
  | [a; b; c] => Ok (a, b, c)
  | _ => Raise ValueError
  end.

Definition opt_str (o : option string) : value :=
  match o with
  | Some s => VStr s
  | None => VNone
  end.

(** [parse_ci_message(msg, compose_url)]: what the call returns or raises.
    The lines that it logs on the way are in [parse_ci_message_logged],
    which ends in the same way. *)
Definition parse_ci_message (msg : value) (compose_url : option string)
    : outcome value :=
  match getitem msg "compose_url" with
  | Ok v => Ok v
  | Raise KeyError =>
      match getitem msg "branch" with
      | Raise KeyError => Ok (opt_str compose_url)
      | Raise e => Raise e
      | Ok branch =>
          parts ← split_branch branch;
          '(_, version, distro) ← unpack3 parts;
          f ← PyFloat.of_string version;
          major ← PyFloat.to_int f;
          let distro := PyStr.upper distro in
          result ← py_mod compose_url
                     (PyFormat.Mapping
                        (<["branch" := branch]>
                           (<["major" := VInt major]>
                              (<["distro" := VStr distro]> ∅))));
          Ok (VStr result)
      end
  | Raise e => Raise e
  end.

(** The environment variables that the program reads. *)
Record environ : Type := {
  COMPOSE_URL : option string;
  CI_MESSAGE : option string;
  WORKSPACE : option string
}.

Section FromEnv.
(** [json.loads]: the parsed document, or [None] for the [ValueError] of
    text that is not JSON. *)
Variable json_loads : string → option value.

(** [compose_url_from_env()]: what the call returns or raises; with the log
    lines it is [compose_url_from_env_logged]. *)
Definition compose_url_from_env (env : environ) : outcome value :=
  let compose_url := default "" (COMPOSE_URL env) in
  let compose_url :=
    if String.eqb compose_url "" then None else Some compose_url in
  match json_loads (default "" (CI_MESSAGE env)) with
  | None => Ok (opt_str compose_url)
  | Some msg => parse_ci_message msg compose_url
  end.
End FromEnv.

Example format_example :
  PyFormat.format "http://x/%(branch)s/%(major)s/%(distro)s"
    (PyFormat.Mapping
       (<["branch" := VStr "ceph-3.0-rhel-7"]>
          (<["major" := VInt 3]> (<["distro" := VStr "RHEL-7"]> ∅))))
  = Ok "http://x/ceph-3.0-rhel-7/3/RHEL-7".
Proof. vm_compute. reflexivity. Qed.

Example parse_example :
  parse_ci_message (VDict {["branch" := VStr "ceph-3.0-rhel-7"]})
    (Some "http://x/%(branch)s/%(major)s/%(distro)s")
  = Ok (VStr "http://x/ceph-3.0-rhel-7/3/RHEL-7").
Proof. vm_compute. reflexivity. Qed.

(** ** BranchResolver *)

(** Modelled from the spec: the compose object of [bucko.repo_compose], of
    which the pipeline reads the release family ([info.release.short]), the
    release version, the compose identifier and, once [set_base_product] has
    stored it, the optional parent image of the base product. *)
Record compose : Type := {
  release_short : string;
  release_version : string;
  compose_id : string;
  base_product : option (value * value * value * value)
}.

Definition set_base_product (c : compose) (url gpgkey extras parent : value)
    : compose :=
  {| release_short := release_short c;
     release_version := release_version c;
     compose_id := compose_id c;
     base_product := Some (url, gpgkey, extras, parent) |}.

(** [c.info.base_product.parent_image] *)
Definition parent_image (c : compose) : outcome value :=
  match base_product c with
  | Some (_, _, _, parent) => Ok parent
  | None => Raise AttributeError
  end.

(** [get_branch(compose)] *)
Definition get_branch (c : compose) : outcome string :=
  let name := PyStr.lower (release_short c) in
  let name := if String.eqb name "rhceph" then "ceph" else name in
  let version := VStr (release_version c) in
  let version :=
    if String.eqb name "ceph" && PyStr.startswith (release_version c) "2"
    then VInt 2 else version in
  PyFormat.format "%s-%s-rhel-7" (PyFormat.Tuple [VStr name; version]).

(** Upper and lower case as a table of letters, for the statements: the
    small letters in their order and, at the same places, their capitals;
    the letters of Latin-1 are given by their codes. *)
Module Letters.

Fixpoint codes (first : N) (count : nat) : string :=
  match count with
  | O => ""
  | S n => String (ascii_of_N first) (codes (first + 1) n)
  end.

Definition small : string :=
  "abcdefghijklmnopqrstuvwxyz" +:+ codes 224 23 +:+ codes 248 7.

Definition capital : string :=
  "ABCDEFGHIJKLMNOPQRSTUVWXYZ" +:+ codes 192 23 +:+ codes 216 7.

(** The letter at the place of [c] in the other row, [c] itself when it is
    not in the row [from]. *)
Fixpoint translate (from to : string) (c : ascii) : ascii :=
  match from, to with
  | String a from', String b to' =>
      if Ascii.eqb c a then b else translate from' to' c
  | _, _ => c
  end.

Fixpoint lowercase (s : string) : string :=
  match s with
  | EmptyString => EmptyString
  | String c r => String (translate capital small c) (lowercase r)
  end.

Fixpoint uppercase (s : string) : string :=
  match s with
  | EmptyString => EmptyString
  | String c r => String (translate small capital c) (uppercase r)
  end.

End Letters.

(** The rule of the specification, in its words: lowercase the family, take
    "rhceph" to "ceph", collapse the version to 2 when the family is "ceph"
    and the version starts with "2", and join with the fixed suffix. *)
Definition branch_rule (release_family release_version : string) : string :=
  let family := Letters.lowercase release_family in
  let family := if decide (family = "rhceph") then "ceph" else family in
  let version :=
    match release_version with
    | String "2" _ => if decide (family = "ceph") then "2" else release_version
    | _ => release_version
    end in
  family +:+ "-" +:+ version +:+ "-rhel-7".

(** ** BuildOrchestrator *)

Record publisher : Type := { push_url : value; http_url : value }.

(** The external collaborators, at their interface: configuration, compose
    reader, publisher, container-build client and registry client, and the
    services of the operating system and of the Python library whose results
    the pipeline only passes on. *)
Record collaborators : Type := {
  Config : Type;
  Koji : Type;
  Registry : Type;
  config_load : outcome Config;
  config_lookup : Config → string → string → bool → outcome value;
  config_items : Config → string → gmap string value
                 → outcome (gmap string value);
  RepoCompose : value → gmap string value → outcome compose;
  (** [c.write_yum_repo_file()]: modelled from the spec (4.3, stage 5), it
      materialises the repository descriptor in a temporary file and returns
      its path; here the path and the text of that file *)
  write_yum_repo_file : compose → outcome (string * string);
  publish : publisher → string → outcome value;
  KojiBuilder : value → value → value → outcome Koji;
  koji_build_container :
    Koji → value → value → string → list value → bool → value → outcome value;
  watch_task : Koji → value → outcome unit;
  get_repositories : Koji → value → outcome (list value);
  new_Registry : value → outcome Registry;
  registry_build : Registry → value → outcome value;
  (** [tempfile.mkdtemp(suffix)], at its n-th call *)
  mkdtemp : string → nat → string;
  (** whether [open(path, 'w')] succeeds *)
  writable : string → bool;
  (** the JSON text of a float (its [repr]) and of an object inside a
      value, which this file does not compute *)
  json_encode : value → string;
  (** [str(v)] where this file does not compute it: for a float and for a
      container (their [repr]), and for text with characters that are not
      ASCII (a byte string is its own [str], a unicode string raises
      [UnicodeEncodeError]) *)
  str_other : value → outcome string;
  (** [d.iteritems()]: the items of the dictionary in the order in which
      it yields them; dictionaries have this method on Python 2 only, on
      Python 3 the call raises [AttributeError] *)
  dict_iteritems : gmap string value → outcome (list (string * value));
  dict_iteritems_perm :
    ∀ d items, dict_iteritems d = Ok items → items ≡ₚ map_to_list d
}.

(** What a run leaves behind: the files that the program writes and the
    file that it has the compose write, in order, with their text; its log
    lines (template and the values formatted into it); and how many
    temporary directories it made. *)
Record world : Type := {
  writes : list (string * string);
  logged : list (string * list value);
  tmpdirs : nat
}.

Definition M (A : Type) : Type := world → outcome A * world.

#[global] Instance M_ret : MRet M := λ A a w, (Ok a, w).

#[global] Instance M_bind : MBind M := λ A B k c w,
  match c w with
  | (Ok a, w') => k a w'
  | (Raise e, w') => (Raise e, w')
  end.

Definition lift {A} (c : outcome A) : M A := λ w, (c, w).

Definition log_info (template : string) (a : list value) : M unit := λ w,
  (Ok (),
   {| writes := writes w;
      logged := logged w ++ [(template, a)];
      tmpdirs := tmpdirs w |}).

(** [os.path.join(a, b)] *)
Definition path_join (a b : string) : string :=
  if PyStr.startswith b "/" then b
  else if String.eqb a "" || PyStr.endswith a "/" then a +:+ b
  else a +:+ "/" +:+ b.

(** [d[key]] on a dictionary with text keys. *)
Definition dict_get (d : gmap string value) (key : string) : outcome value :=
  match d !! key with
  | Some v => Ok v
  | None => Raise KeyError
  end.

(** Truth value of an object under [if]. *)
Definition truthy (v : value) : bool :=
  match v with
  | VNone => false
  | VBool b => b
  | VInt n => negb (n =? 0)%Z
  | VFloat (FFinite _ m _) => negb (m =? 0)%Z
  | VFloat _ => true
  | VStr s => negb (String.eqb s "")
  | VList l => match l with [] => false | _ => true end
  | VDict d => negb (bool_decide (d = ∅))
  end.

(** [str(v)] *)
Definition py_str (C : collaborators) (v : value) : outcome string :=
  match v with
  | VStr s => if PyStr.is_ascii s then Ok s else str_other C v
  | _ =>
      match str_scalar v with
      | Some s => Ok s
      | None => str_other C v
      end
  end.

(** A key of the messages, between double quotes. *)
Definition quoted (key : string) : string :=
  String "034" (key +:+ String "034" "").

(** [parse_ci_message(msg, compose_url)] with its log lines: the first one
    is written before the message is looked into. *)
Definition parse_ci_message_logged (msg : value) (compose_url : option string)
    : M value :=
  _ ← log_info "Parsing CI_MESSAGE: %s" [msg];
  match getitem msg "compose_url" with
  | Ok v => mret v
  | Raise KeyError =>
      _ ← log_info ("CI_MESSAGE JSON lacks " +:+ quoted "compose_url"
                    +:+ " key.") [];
      match getitem msg "branch" with
      | Raise KeyError =>
          _ ← log_info ("CI_MESSAGE JSON lacks " +:+ quoted "branch"
                        +:+ " key.") [];
          _ ← log_info "Falling back to COMPOSE_URL env variable." [];
          mret (opt_str compose_url)
      | Raise e => lift (Raise e)
      | Ok branch =>
          parts ← lift (split_branch branch);
          '(_, version, distro) ← lift (unpack3 parts);
          f ← lift (PyFloat.of_string version);
          major ← lift (PyFloat.to_int f);
          let distro := PyStr.upper distro in
          result ← lift (py_mod compose_url
                           (PyFormat.Mapping
                              (<["branch" := branch]>
                                 (<["major" := VInt major]>
                                    (<["distro" := VStr distro]> ∅)))));
          _ ← log_info "transformed %s format string to %s"
                [opt_str compose_url; VStr result];
          mret (VStr result)
      end
  | Raise e => lift (Raise e)
  end.

(** [compose_url_from_env()] with the log lines of [parse_ci_message]. *)
Definition compose_url_from_env_logged (json_loads : string → option value)
    (env : environ) : M value :=
  let compose_url := default "" (COMPOSE_URL env) in
  let compose_url :=
    if String.eqb compose_url "" then None else Some compose_url in
  match json_loads (default "" (CI_MESSAGE env)) with
  | None => mret (opt_str compose_url)
  | Some msg => parse_ci_message_logged msg compose_url
  end.

(** The members of a dictionary in ascending order of their keys, as
    [json.dump(..., sort_keys=True)] emits them. *)
Definition key_le (p q : string * value) : Prop := String.le p.1 q.1.

#[global] Instance key_le_dec : RelDecision key_le.
Proof. intros p q. unfold key_le. apply _. Defined.

Definition sorted_items (d : gmap string value) : list (string * value) :=
  merge_sort key_le (map_to_list d).

Fixpoint join (sep : string) (l : list string) : string :=
  match l with
  | [] => ""
  | [x] => x
  | x :: r => x +:+ sep +:+ join sep r
  end.

(** [json.dumps] with its defaults ([ensure_ascii], the separators ", "
    and ": "). *)
Module PyJson.

Definition hex_digit (n : N) : ascii :=
  ascii_of_N (if (n <? 10)%N then 48 + n else 87 + n).

(** One character inside a JSON string: the quote, the backslash and the
    control characters are escaped, and every other character outside the
    printable ASCII is written as a backslash, u and four hexadecimal
    digits. *)
Definition escape (c : ascii) : string :=
  let n := PyStr.code c in
  let backslash := String "092" in
  if (n =? 34)%N then backslash (String "034" "")
  else if (n =? 92)%N then backslash (backslash "")
  else if (n =? 8)%N then backslash "b"
  else if (n =? 12)%N then backslash "f"
  else if (n =? 10)%N then backslash "n"
  else if (n =? 13)%N then backslash "r"
  else if (n =? 9)%N then backslash "t"
  else if ((32 <=? n) && (n <=? 126))%N then String c ""
  else backslash
         ("u00" +:+ String (hex_digit (n / 16))
                      (String (hex_digit (n mod 16)) "")).

Fixpoint escaped (s : string) : string :=
  match s with
  | EmptyString => ""
  | String c r => escape c +:+ escaped r
  end.

(** [encode_basestring_ascii(s)] *)
Definition encode_basestring_ascii (s : string) : string :=
  String "034" (escaped s +:+ String "034" "").

End PyJson.

(** [json.dumps(v)]: the scalars, text and lists are computed here; a
    float and an object inside a value are left to [json_encode]. *)
Fixpoint json_value (C : collaborators) (v : value) : string :=
  match v with
  | VNone => "null"
  | VBool b => if b then "true" else "false"
  | VInt n => PyStr.of_Z n
  | VStr s => PyJson.encode_basestring_ascii s
  | VList l => "[" +:+ join ", " (map (json_value C) l) +:+ "]"
  | VFloat _ | VDict _ => json_encode C v
  end.

(** The text of an object with the given members, in their order. *)
Definition json_object (enc : value → string) (members : list (string * value))
    : string :=
  "{" +:+ join ", "
            (map (λ kv, PyJson.encode_basestring_ascii kv.1 +:+ ": "
                        +:+ enc kv.2) members)
  +:+ "}".

Section Pipeline.
Variable C : collaborators.

Definition open_write (path content : string) : M unit := λ w,
  if writable C path
  then (Ok (),
        {| writes := writes w ++ [(path, content)];
           logged := logged w;
           tmpdirs := tmpdirs w |})
  else (Raise IOError, w).

(** [with open(path, 'w') as f: body]: once the file is open, what the
    body wrote is in the file, however the body ends. *)
Definition write_through (path : string) (body : string * outcome unit)
    : M unit := λ w,
  if writable C path
  then (body.2,
        {| writes := writes w ++ [(path, body.1)];
           logged := logged w;
           tmpdirs := tmpdirs w |})
  else (Raise IOError, w).

(** [c.write_yum_repo_file()]: the descriptor file is written, its path
    returned. *)
Definition materialise (c : compose) : M string := λ w,
  match write_yum_repo_file C c with
  | Ok (path, text) =>
      (Ok path,
       {| writes := writes w ++ [(path, text)];
          logged := logged w;
          tmpdirs := tmpdirs w |})
  | Raise e => (Raise e, w)
  end.

Definition make_tmpdir (suffix : string) : M string := λ w,
  (Ok (mkdtemp C suffix (tmpdirs w)),
   {| writes := writes w;
      logged := logged w;
      tmpdirs := S (tmpdirs w) |}).

(** [get_publisher(configp)] *)
Definition get_publisher (configp : Config C) : outcome publisher :=
  push ← config_lookup C configp "publish" "push" true;
  http ← config_lookup C configp "publish" "http" true;
  Ok {| push_url := push; http_url := http |}.

(** [write_metadata_file(filename, kwargs)], [kwargs] the keyword arguments *)
Definition write_metadata_file (filename : string)
    (kwargs : gmap string value) : M string :=
  dir ← make_tmpdir ".json";
  let filename := path_join dir filename in
  _ ← open_write filename (json_object (json_value C) (sorted_items kwargs));
  mret filename.

(** The loop of [write_props_file]: one line per item, in the order of the
    items; [str(value)] can raise, and the loop then stops with the lines
    written so far. *)
Fixpoint props_lines (items : list (string * value)) : string * outcome unit :=
  match items with
  | [] => ("", Ok ())
  | (key, v) :: rest =>
      match py_str C v with
      | Ok s =>
          let '(text, r) := props_lines rest in
          (PyStr.upper key +:+ "=" +:+ s +:+ String "010" "" +:+ text, r)
      | Raise e => ("", Raise e)
      end
  end.

(** [write_props_file(kwargs)], [kwargs] the keyword arguments *)
Definition write_props_file (env : environ) (kwargs : gmap string value)
    : M unit :=
  match WORKSPACE env with
  | Some workspace =>
      _ ← log_info "WORKSPACE detected, writing osbs.props for Jenkins" [];
      let props_path := path_join workspace "osbs.props" in
      write_through props_path
        (match dict_iteritems C kwargs with
         | Ok items => props_lines items
         | Raise e => ("", Raise e)
         end)
  | None => mret ()
  end.

(** [get_compose(compose_url, configp)] *)
Definition get_compose (compose_url : value) (configp : Config C)
    : outcome compose :=
  keys ← config_items C configp "keys" ∅;
  c ← RepoCompose C compose_url keys;
  branch ← get_branch c;
  let section := branch +:+ "-base" in
  bp_url ← config_lookup C configp section "url" true;
  bp_gpgkey ← config_lookup C configp section "gpgkey" false;
  bp_extras ← config_lookup C configp section "extras" false;
  bp_parent_image ← config_lookup C configp section "parent_image" false;
  Ok (set_base_product c bp_url bp_gpgkey bp_extras bp_parent_image).

(** The last step of [build_container]: the result dictionary from the
    task and the repositories that the build system returned. *)
Definition collect_result (task_id : value) (repositories : list value)
    : gmap string value :=
  let result : gmap string value := {["koji_task" := task_id]} in
  match repositories with
  | [r] => <["repository" := r]> result
  | _ => <["repositories" := VList repositories]> result
  end.

(** [build_container(repo_url, branch, parent_image, configp)] *)
Definition build_container (repo_url : value) (branch : string)
    (parent_image : value) (configp : Config C)
    : M (gmap string value) :=
  kconf ← lift (config_items C configp "koji" {["branch" := VStr branch]});
  hub ← lift (dict_get kconf "hub");
  web ← lift (dict_get kconf "web");
  krbservice ← lift (dict_get kconf "krbservice");
  koji ← lift (KojiBuilder C hub web krbservice);
  parent ←
    (if truthy parent_image then
       lift (registry_url ← config_lookup C configp "registry" "url" true;
             registry ← new_Registry C registry_url;
             registry_build C registry parent_image)
     else mret VNone);
  _ ← log_info "Building container at %s" [hub];
  scm ← lift (dict_get kconf "scm");
  target ← lift (dict_get kconf "target");
  task_id ← lift (koji_build_container C koji scm target branch [repo_url]
                    true parent);
  _ ← lift (watch_task C koji task_id);
  repositories ← lift (get_repositories C koji task_id);
  mret (collect_result task_id repositories).

(** The metadata of a finished build, as [main] completes it. *)
Definition assemble_metadata (result : gmap string value)
    (compose_url : value) (c : compose) : gmap string value :=
  <["compose_id" := VStr (compose_id c)]>
    (<["compose_url" := compose_url]> result).

Section Main.
Variable json_loads : string → option value.

(** [parse_args()]: the default of [--compose] is computed first, then
    an argument given on the command line replaces it. *)
Definition parse_args (cli : option string) (env : environ) : M value :=
  from_env ← compose_url_from_env_logged json_loads env;
  mret (match cli with
        | Some url => VStr url
        | None => from_env
        end).

(** Everything in [main()] up to and including the call of
    [build_container]. *)
Definition build_stage (cli : option string) (env : environ)
    : M (value * publisher * compose * gmap string value) :=
  args_compose ← parse_args cli env;
  _ ← lift (match args_compose with
            | VNone =>
                Raise (SystemExit
                  "Please set the CI_MESSAGE env var or use --compose arg")
            | _ => Ok ()
            end);
  let compose_url := args_compose in
  configp ← lift (config_load C);
  c ← lift (get_compose compose_url configp);
  _ ← log_info "Generating .repo file for %s compose"
        [VStr (release_short c)];
  filename ← materialise c;
  p ← lift (get_publisher configp);
  _ ← log_info "Publishing .repo file to %s" [push_url p];
  repo_url ← lift (publish C p filename);
  _ ← log_info "Published %s" [repo_url];
  branch ← lift (get_branch c);
  parent ← lift (parent_image c);
  metadata ← build_container repo_url branch parent configp;
  mret (compose_url, p, c, metadata).

(** The rest of [main()]: store and publish the metadata. *)
Definition publish_stage
    (built : value * publisher * compose * gmap string value)
    (env : environ) : M unit :=
  let '(compose_url, p, c, metadata) := built in
  let metadata := assemble_metadata metadata compose_url c in
  json_file ← write_metadata_file (compose_id c +:+ "-osbs.json") metadata;
  json_url ← lift (publish C p json_file);
  _ ← log_info "OSBS JSON data at %s" [json_url];
  write_props_file env metadata.

(** [main()] *)
Definition main (cli : option string) (env : environ) : M unit :=
  built ← build_stage cli env;
  publish_stage built env.
End Main.
End Pipeline.

Definition empty_world : world :=
  {| writes := []; logged := []; tmpdirs := 0 |}.

(** * Properties *)

(** ** BranchResolver *)

Lemma startswith_2 (s : string) :
  PyStr.startswith s "2" = match s with String "2" _ => true | _ => false end.
Proof.
  destruct s as [|c r]; [reflexivity|].
  destruct c as [[] [] [] [] [] [] [] []]; reflexivity.
Qed.

Lemma lower_char_table c :
  PyStr.lower_char c = Letters.translate Letters.capital Letters.small c.
Proof. destruct c as [[] [] [] [] [] [] [] []]; reflexivity. Qed.

Lemma upper_char_table c :
  PyStr.upper_char c = Letters.translate Letters.small Letters.capital c.
Proof. destruct c as [[] [] [] [] [] [] [] []]; reflexivity. Qed.

Lemma lower_lowercase s : PyStr.lower s = Letters.lowercase s.
Proof.
  induction s as [|c s IH]; [reflexivity|].
  cbn [PyStr.lower PyStr.map Letters.lowercase]. fold (PyStr.lower s).
  by rewrite IH, lower_char_table.
Qed.

Lemma upper_uppercase s : PyStr.upper s = Letters.uppercase s.
Proof.
  induction s as [|c s IH]; [reflexivity|].
  cbn [PyStr.upper PyStr.map Letters.uppercase]. fold (PyStr.upper s).
  by rewrite IH, upper_char_table.
Qed.

(** C4. [get_branch] always returns, and what it returns is the branch of the
    specification's rule: family lowercased (letter by letter, by the table
    of letters), "rhceph" taken to "ceph", the version collapsed to 2
    exactly for family "ceph" with a version that starts with "2", in the
    form family-version-rhel-7.  In particular ("rhceph", "2.5") gives
    "ceph-2-rhel-7" and ("rhceph", "4.0") gives "ceph-4.0-rhel-7", and so do
    the families "RHCEPH" and "RHCeph"; ("Ceph", "2") gives "ceph-2-rhel-7",
    a family that is not ceph keeps a version that starts with "2", and a
    capital of Latin-1 (E with acute accent, code 201) becomes its small
    letter (code 233). *)
Theorem get_branch_rule :
  (∀ c : compose,
     get_branch c = Ok (branch_rule (release_short c) (release_version c)))
  ∧ (∀ id bp,
       get_branch {| release_short := "rhceph"; release_version := "2.5";
                     compose_id := id; base_product := bp |}
       = Ok "ceph-2-rhel-7")
  ∧ (∀ id bp,
       get_branch {| release_short := "rhceph"; release_version := "4.0";
                     compose_id := id; base_product := bp |}
       = Ok "ceph-4.0-rhel-7")
  ∧ (∀ id bp,
       get_branch {| release_short := "RHCEPH"; release_version := "2.5";
                     compose_id := id; base_product := bp |}
       = Ok "ceph-2-rhel-7")
  ∧ (∀ id bp,
       get_branch {| release_short := "RHCeph"; release_version := "4.0";
                     compose_id := id; base_product := bp |}
       = Ok "ceph-4.0-rhel-7")
  ∧ (∀ id bp,
       get_branch {| release_short := "Ceph"; release_version := "2";
                     compose_id := id; base_product := bp |}
       = Ok "ceph-2-rhel-7")
  ∧ (∀ id bp,
       get_branch {| release_short := "RHEL"; release_version := "2.5";
                     compose_id := id; base_product := bp |}
       = Ok "rhel-2.5-rhel-7")
  ∧ (∀ id bp,
       get_branch {| release_short := String "201" "cole";
                     release_version := "1";
                     compose_id := id; base_product := bp |}
       = Ok (String "233" "cole-1-rhel-7")).
Proof.
  split; [|repeat split; intros; reflexivity].
  intros [short version id bp]. unfold get_branch, branch_rule.
  cbn [release_short release_version].
  rewrite startswith_2, lower_lowercase.
  set (name := Letters.lowercase short).
  destruct (decide (name = "rhceph")) as [->|Hne].
  - simpl. destruct version as [|c r]; [reflexivity|].
    destruct c as [[] [] [] [] [] [] [] []]; reflexivity.
  - assert (String.eqb name "rhceph" = false) as -> by by apply String.eqb_neq.
    destruct (decide (name = "ceph")) as [->|Hne'].
    + simpl. destruct version as [|c r]; [reflexivity|].
      destruct c as [[] [] [] [] [] [] [] []]; reflexivity.
    + assert (String.eqb name "ceph" = false) as -> by by apply String.eqb_neq.
      simpl. destruct version as [|c r]; [reflexivity|].
      destruct c as [[] [] [] [] [] [] [] []]; reflexivity.
Qed.

(** ** ComposeURLResolver *)

(** *** Templates of literal text and the three named placeholders *)

Inductive piece : Type :=
| Lit (s : string)
| PBranch
| PMajor
| PDistro.

Definition piece_text (p : piece) : string :=
  match p with
  | Lit s => s
  | PBranch => "%(branch)s"
  | PMajor => "%(major)s"
  | PDistro => "%(distro)s"
  end.

Fixpoint render (ps : list piece) : string :=
  match ps with
  | [] => ""
  | p :: r => piece_text p +:+ render r
  end.

(** Named-placeholder substitution, as the specification describes the
    interpolation. *)
Definition fill (branch major distro : string) (p : piece) : string :=
  match p with
  | Lit s => s
  | PBranch => branch
  | PMajor => major
  | PDistro => distro
  end.

Fixpoint interpolate (branch major distro : string) (ps : list piece)
    : string :=
  match ps with
  | [] => ""
  | p :: r => fill branch major distro p +:+ interpolate branch major distro r
  end.

Definition plain (p : piece) : Prop :=
  match p with
  | Lit s => PyStr.char_in "%" s = false
  | _ => True
  end.

Definition resolver_fields (branch : string) (major : Z) (distro : string)
    : gmap string value :=
  <["branch" := VStr branch]>
    (<["major" := VInt major]> (<["distro" := VStr distro]> ∅)).

Lemma app_cons c s t : String c s +:+ t = String c (s +:+ t).
Proof. reflexivity. Qed.

Lemma app_nil_l t : "" +:+ t = t.
Proof. reflexivity. Qed.

Lemma fmap_cons_app {c s} (x : outcome string) :
  String c <$> (String.app s <$> x) = String.app (String c s) <$> x.
Proof. destruct x; reflexivity. Qed.


Lemma scan_literal a rest s t :
  PyStr.char_in "%" s = false →
  PyFormat.scan a rest PyFormat.SText (s +:+ t)
  = String.app s <$> PyFormat.scan a rest PyFormat.SText t.
Proof.
  induction s as [|c s IH]; intros Hs.
  - rewrite app_nil_l. by destruct (PyFormat.scan _ _ _ t).
  - rewrite app_cons. cbn [PyStr.char_in] in Hs.
    apply orb_false_iff in Hs as [Hc Hs].
    cbn [PyFormat.scan]. rewrite Ascii.eqb_sym, Hc, IH by done.
    apply fmap_cons_app.
Qed.

Lemma scan_branch d rest b t :
  d !! "branch" = Some (VStr b) →
  PyFormat.scan (PyFormat.Mapping d) rest PyFormat.SText ("%(branch)s" +:+ t)
  = String.app b <$> PyFormat.scan (PyFormat.Mapping d) rest PyFormat.SText t.
Proof.
  intros Hd. change ("%(branch)s" +:+ t) with
    (String "%" (String "(" (String "b" (String "r" (String "a" (String "n"
       (String "c" (String "h" (String ")" (String "s" t)))))))))).
  cbn [PyFormat.scan Ascii.eqb Bool.eqb String.rev String.rev_app].
  change (String.rev_app "hcnarb" "") with "branch". rewrite Hd.
  cbn [PyFormat.scan]. reflexivity.
Qed.

Lemma scan_major d rest z t :
  d !! "major" = Some (VInt z) →
  PyFormat.scan (PyFormat.Mapping d) rest PyFormat.SText ("%(major)s" +:+ t)
  = String.app (PyStr.of_Z z)
      <$> PyFormat.scan (PyFormat.Mapping d) rest PyFormat.SText t.
Proof.
  intros Hd. change ("%(major)s" +:+ t) with
    (String "%" (String "(" (String "m" (String "a" (String "j" (String "o"
       (String "r" (String ")" (String "s" t))))))))).
  cbn [PyFormat.scan Ascii.eqb Bool.eqb String.rev String.rev_app].
  change (String.rev_app "rojam" "") with "major". rewrite Hd.
  cbn [PyFormat.scan]. reflexivity.
Qed.

Lemma scan_distro d rest s t :
  d !! "distro" = Some (VStr s) →
  PyFormat.scan (PyFormat.Mapping d) rest PyFormat.SText ("%(distro)s" +:+ t)
  = String.app s <$> PyFormat.scan (PyFormat.Mapping d) rest PyFormat.SText t.
Proof.
  intros Hd. change ("%(distro)s" +:+ t) with
    (String "%" (String "(" (String "d" (String "i" (String "s" (String "t"
       (String "r" (String "o" (String ")" (String "s" t)))))))))).
  cbn [PyFormat.scan Ascii.eqb Bool.eqb String.rev String.rev_app].
  change (String.rev_app "ortsid" "") with "distro". rewrite Hd.
  cbn [PyFormat.scan]. reflexivity.
Qed.

Lemma format_render b z ds ps :
  Forall plain ps →
  PyFormat.format (render ps) (PyFormat.Mapping (resolver_fields b z ds))
  = Ok (interpolate b (PyStr.of_Z z) ds ps).
Proof.
  unfold PyFormat.format. induction 1 as [|p ps Hp _ IH]; [reflexivity|].
  cbn [render interpolate].
  destruct p as [s| | |]; cbn [piece_text fill].
  - rewrite scan_literal, IH by exact Hp. reflexivity.
  - rewrite (scan_branch _ _ b), IH by reflexivity. reflexivity.
  - rewrite (scan_major _ _ z), IH by reflexivity. reflexivity.
  - rewrite (scan_distro _ _ ds), IH by reflexivity. reflexivity.
Qed.

(** *** The split of a branch *)

Lemma cut_at sep a r :
  PyStr.char_in sep a = false →
  PyStr.cut sep (a +:+ String sep r) = Some (a, r).
Proof.
  induction a as [|c a IH]; intros Ha.
  - rewrite app_nil_l. cbn [PyStr.cut]. by rewrite Ascii.eqb_refl.
  - rewrite app_cons. cbn [PyStr.char_in] in Ha.
    apply orb_false_iff in Ha as [Hc Ha]. cbn [PyStr.cut].
    rewrite Ascii.eqb_sym, Hc, IH by done. reflexivity.
Qed.

(** A branch written name-version-distro, with no dash in the name and in
    the version, splits into these three segments; the distro keeps its
    dashes. *)
Lemma split_three name version distro :
  PyStr.char_in "-" name = false →
  PyStr.char_in "-" version = false →
  PyStr.split "-" 2 (name +:+ "-" +:+ version +:+ "-" +:+ distro)
  = [name; version; distro].
Proof.
  intros Hn Hv. cbn [PyStr.split].
  change ("-" +:+ version +:+ "-" +:+ distro)
    with (String "-" (version +:+ String "-" distro)).
  by rewrite !cut_at.
Qed.

(** What [parse_ci_message] does once the message has no "compose_url" and
    a text "branch" that splits and whose version converts. *)
Lemma branch_tier d b name version distro f major template :
  d !! "compose_url" = None →
  d !! "branch" = Some (VStr b) →
  PyStr.split "-" 2 b = [name; version; distro] →
  PyFloat.of_string version = Ok f →
  PyFloat.to_int f = Ok major →
  parse_ci_message (VDict d) template
  = VStr <$> py_mod template
      (PyFormat.Mapping (resolver_fields b major (PyStr.upper distro))).
Proof.
  intros Hu Hb Hs Hf Hm. unfold parse_ci_message, getitem, split_branch.
  rewrite Hu, Hb. cbn [mbind outcome_bind]. rewrite Hs.
  cbn [unpack3 mbind outcome_bind]. rewrite Hf. cbn [mbind outcome_bind].
  rewrite Hm. cbn [mbind outcome_bind]. fold (resolver_fields b major (PyStr.upper distro)).
  by destruct (py_mod _ _).
Qed.

(** The messages of the examples: [json.loads] on these documents; any other
    text stands for text that is not JSON. *)
Module Sample.

Definition quoted (s : string) : string :=
  String "034" (s +:+ String "034" "").

Definition object1 (key text : string) : string :=
  "{" +:+ quoted key +:+ ": " +:+ quoted text +:+ "}".

Definition documents : list (string * value) :=
  [ (object1 "compose_url" "http://example.com/foo",
     VDict {["compose_url" := VStr "http://example.com/foo"]});
    (object1 "compose_url" "",
     VDict {["compose_url" := VStr ""]});
    (object1 "branch" "ceph-3.0-rhel-7",
     VDict {["branch" := VStr "ceph-3.0-rhel-7"]});
    (object1 "branch" "a-1-",
     VDict {["branch" := VStr "a-1-"]});
    (object1 "branch" "private-foo-rhel-7",
     VDict {["branch" := VStr "private-foo-rhel-7"]});
    ("{}", VDict ∅);
    ("5", VInt 5);
    ("[]", VList []);
    (quoted "nightly", VStr "nightly") ].

Fixpoint lookup (l : list (string * value)) (text : string) : option value :=
  match l with
  | [] => None
  | (t, v) :: r => if String.eqb t text then Some v else lookup r text
  end.

Definition json_loads (text : string) : option value := lookup documents text.

Definition env (compose_url ci_message : option string) : environ :=
  {| COMPOSE_URL := compose_url; CI_MESSAGE := ci_message;
     WORKSPACE := None |}.

End Sample.

(** C2. A message with the key "compose_url" resolves to the value of that
    key, unchanged, whatever else the message holds (a "branch" key too) and
    whatever the fallback template is (null, or with placeholders): for
    [parse_ci_message] and so for [compose_url_from_env] on every environment
    whose message parses to it. *)
Theorem compose_url_verbatim (d : gmap string value) (v : value) :
  d !! "compose_url" = Some v →
  (∀ template, parse_ci_message (VDict d) template = Ok v)
  ∧ (∀ json_loads env,
       json_loads (default "" (CI_MESSAGE env)) = Some (VDict d) →
       compose_url_from_env json_loads env = Ok v).
Proof.
  intros Hd.
  assert (∀ template, parse_ci_message (VDict d) template = Ok v) as Hp.
  { intros template. unfold parse_ci_message, getitem. by rewrite Hd. }
  split; [exact Hp|]. intros json_loads env Hl.
  unfold compose_url_from_env. rewrite Hl. apply Hp.
Qed.

Lemma compose_url_verbatim_witness :
  parse_ci_message
    (VDict (<["branch" := VStr "ceph-3.0-rhel-7"]>
              {["compose_url" := VStr "http://example.com/foo"]}))
    None
  = Ok (VStr "http://example.com/foo")
  ∧ compose_url_from_env Sample.json_loads
      (Sample.env (Some "http://x/%(branch)s/%(major)s/%(distro)s")
         (Some (Sample.object1 "compose_url" "http://example.com/foo")))
    = Ok (VStr "http://example.com/foo").
Proof.
  split.
  - apply (compose_url_verbatim
             (<["branch" := VStr "ceph-3.0-rhel-7"]>
                {["compose_url" := VStr "http://example.com/foo"]})
             (VStr "http://example.com/foo")).
    reflexivity.
  - apply (compose_url_verbatim
             {["compose_url" := VStr "http://example.com/foo"]}
             (VStr "http://example.com/foo")); reflexivity.
Defined.

(** Truncation towards zero, in the words of the specification: [n] has the
    sign of the float and the largest whole magnitude that is not above the
    magnitude m * 2^e of the float. *)
Definition truncates (f : pyfloat) (n : Z) : Prop :=
  match f with
  | FFinite neg m e =>
      ∃ a : Z,
        n = (if neg then - a else a)%Z
        ∧ (a * 2 ^ Z.max (- e) 0 ≤ m * 2 ^ Z.max e 0
           < (a + 1) * 2 ^ Z.max (- e) 0)%Z
  | FInf _ | FNaN => False
  end.

Lemma truncates_to_int (f : pyfloat) (n : Z) :
  truncates f n → PyFloat.to_int f = Ok n.
Proof.
  destruct f as [neg m e| |]; [|done..].
  intros (a & -> & Hlo & Hhi). cbn [PyFloat.to_int]. f_equal.
  destruct (0 <=? e)%Z eqn:He.
  - apply Z.leb_le in He.
    rewrite (Z.max_r (- e) 0) in Hlo, Hhi by lia.
    rewrite (Z.max_l e 0) in Hlo, Hhi by lia.
    change (2 ^ 0)%Z with 1%Z in *.
    assert (a = m * 2 ^ e)%Z as -> by lia. done.
  - apply Z.leb_gt in He.
    rewrite (Z.max_l (- e) 0) in Hlo, Hhi by lia.
    rewrite (Z.max_r e 0) in Hlo, Hhi by lia.
    change (2 ^ 0)%Z with 1%Z in *.
    assert (0 < 2 ^ (- e))%Z by (apply Z.pow_pos_nonneg; lia).
    assert (a = m / 2 ^ (- e))%Z as ->; [|done].
    apply Z.div_unique with (r := (m - a * 2 ^ (- e))%Z); [left|]; lia.
Qed.

(** C3. A message with a "branch" and no "compose_url", whose branch reads
    name-version-distro (no dash in name and version, the distro keeps its
    dashes), resolves against a template of ASCII text that has the three
    placeholders to the template with the branch substituted unchanged, the
    major version being the float value of the version segment truncated
    towards zero, and the distro in upper case, letter by letter after the
    table of [Letters] (for a distro whose capitals are all among the code
    points of this file).  The message with branch "ceph-3.0-rhel-7" and the template
    "http://x/%(branch)s/%(major)s/%(distro)s" give
    "http://x/ceph-3.0-rhel-7/3/RHEL-7"; version 2.7 gives major 2; and the
    distro e with acute accent (code 233) gives its capital (code 201). *)
Theorem branch_interpolation (d : gmap string value)
    (name version distro : string) (f : pyfloat) (major : Z)
    (ps : list piece) :
  d !! "compose_url" = None →
  d !! "branch" = Some (VStr (name +:+ "-" +:+ version +:+ "-" +:+ distro)) →
  PyStr.char_in "-" name = false →
  PyStr.char_in "-" version = false →
  PyFloat.of_string version = Ok f →
  truncates f major →
  PyStr.capitals_in_range distro = true →
  PyStr.is_ascii (render ps) = true →
  Forall plain ps →
  PBranch ∈ ps → PMajor ∈ ps → PDistro ∈ ps →
  parse_ci_message (VDict d) (Some (render ps))
  = Ok (VStr (interpolate (name +:+ "-" +:+ version +:+ "-" +:+ distro)
                (PyStr.of_Z major) (Letters.uppercase distro) ps))
  ∧ parse_ci_message (VDict {["branch" := VStr "ceph-3.0-rhel-7"]})
      (Some "http://x/%(branch)s/%(major)s/%(distro)s")
    = Ok (VStr "http://x/ceph-3.0-rhel-7/3/RHEL-7")
  ∧ parse_ci_message (VDict {["branch" := VStr "ceph-2.7-rhel-7"]})
      (Some "http://x/%(branch)s/%(major)s/%(distro)s")
    = Ok (VStr "http://x/ceph-2.7-rhel-7/2/RHEL-7")
  ∧ parse_ci_message
      (VDict {["branch" := VStr ("a-1-" +:+ String "233" "")]})
      (Some "%(distro)s")
    = Ok (VStr (String "201" "")).
Proof.
  intros Hu Hb Hn Hv Hf Hm%truncates_to_int _ _ Hps _ _ _.
  split; [|by vm_compute].
  rewrite (branch_tier d _ name version distro f major) by
    (try apply split_three; done).
  cbn [py_mod]. by rewrite format_render, upper_uppercase.
Qed.

Lemma branch_interpolation_witness :
  parse_ci_message (VDict {["branch" := VStr "ceph-3.0-rhel-7"]})
    (Some (render [Lit "http://x/"; PBranch; Lit "/"; PMajor; Lit "/";
                   PDistro]))
  = Ok (VStr (interpolate "ceph-3.0-rhel-7" "3" "RHEL-7"
                [Lit "http://x/"; PBranch; Lit "/"; PMajor; Lit "/";
                 PDistro])).
Proof.
  refine (proj1 (branch_interpolation
            {["branch" := VStr "ceph-3.0-rhel-7"]} "ceph" "3.0" "rhel-7"
            (FFinite false 6755399441055744 (-51)) 3
            [Lit "http://x/"; PBranch; Lit "/"; PMajor; Lit "/"; PDistro]
            _ _ _ _ _ _ _ _ _ _ _ _)).
  - reflexivity.
  - reflexivity.
  - reflexivity.
  - reflexivity.
  - vm_compute. reflexivity.
  - exists 3%Z. split; [reflexivity|]. vm_compute.
    split; [discriminate|reflexivity].
  - reflexivity.
  - reflexivity.
  - repeat constructor.
  - repeat constructor.
  - repeat constructor.
  - repeat constructor.
Defined.

(** C5, the claim as stated fails: a message whose "compose_url" is the
    empty string resolves to the empty string, and so does a branch with an
    empty distro against the template "%(distro)s". *)
Lemma empty_string_returned :
  compose_url_from_env Sample.json_loads
    (Sample.env (Some "http://example.com/fallback")
       (Some (Sample.object1 "compose_url" "")))
  = Ok (VStr "")
  ∧ compose_url_from_env Sample.json_loads
      (Sample.env (Some "%(distro)s") (Some (Sample.object1 "branch" "a-1-")))
    = Ok (VStr "").
Proof. split; vm_compute; reflexivity. Qed.

(** C5, amended. The fallback template alone is normalised: when the message
    is not JSON, or is an object with neither "compose_url" nor "branch", the
    result is the fallback template, and null when that template is unset or
    empty; this tier never returns the empty string. *)
Theorem fallback_normalised (json_loads : string → option value)
    (env : environ) :
  (json_loads (default "" (CI_MESSAGE env)) = None
   ∨ ∃ d, json_loads (default "" (CI_MESSAGE env)) = Some (VDict d)
          ∧ d !! "compose_url" = None ∧ d !! "branch" = None) →
  compose_url_from_env json_loads env
  = Ok (match COMPOSE_URL env with
        | Some (String c s) => VStr (String c s)
        | Some EmptyString | None => VNone
        end)
  ∧ compose_url_from_env json_loads env ≠ Ok (VStr "").
Proof.
  intros H.
  assert (compose_url_from_env json_loads env
          = Ok (match COMPOSE_URL env with
                | Some (String c s) => VStr (String c s)
                | Some EmptyString | None => VNone
                end)) as Heq.
  { unfold compose_url_from_env.
    destruct H as [-> | (d & -> & Hu & Hb)].
    - by destruct (COMPOSE_URL env) as [[|c s]|].
    - unfold parse_ci_message, getitem. rewrite Hu, Hb.
      by destruct (COMPOSE_URL env) as [[|c s]|]. }
  split; [exact Heq|]. rewrite Heq.
  by destruct (COMPOSE_URL env) as [[|c s]|].
Qed.

Lemma fallback_normalised_witness :
  compose_url_from_env Sample.json_loads
    (Sample.env (Some "") (Some "not json")) = Ok VNone
  ∧ compose_url_from_env Sample.json_loads
      (Sample.env (Some "") (Some "not json")) ≠ Ok (VStr "").
Proof.
  apply (fallback_normalised Sample.json_loads
           (Sample.env (Some "") (Some "not json"))).
  left. reflexivity.
Defined.

(** When the branch splits into three segments and its version segment is
    the text of a finite float. *)
Definition converts (branch : string) : Prop :=
  ∃ name version distro f major,
    PyStr.split "-" 2 branch = [name; version; distro]
    ∧ PyFloat.of_string version = Ok f
    ∧ PyFloat.to_int f = Ok major.

Lemma unpack3_length parts :
  length parts ≠ 3%nat → unpack3 parts = Raise ValueError.
Proof. destruct parts as [|? [|? [|? [|? ?]]]]; simpl; by try lia. Qed.




Definition is_mapping (v : value) : bool :=
  match v with
  | VDict _ => true
  | _ => false
  end.

(** C9. A message that is JSON but not an object (text, a number, an array,
    null, a boolean) makes resolution raise [TypeError] at the first lookup:
    the lookups catch [KeyError] only, and the template fallback is taken
    only when the text is not JSON. *)
Theorem non_object_message (v : value) :
  is_mapping v = false →
  (∀ template, parse_ci_message v template = Raise TypeError)
  ∧ (∀ json_loads env,
       json_loads (default "" (CI_MESSAGE env)) = Some v →
       compose_url_from_env json_loads env = Raise TypeError).
Proof.
  intros Hv.
  assert (∀ template, parse_ci_message v template = Raise TypeError) as Hp.
  { intros template. by destruct v. }
  split; [exact Hp|]. intros json_loads env Hl.
  unfold compose_url_from_env. rewrite Hl. apply Hp.
Qed.

Lemma non_object_message_witness :
  parse_ci_message (VStr "nightly") (Some "http://example.com/fallback")
  = Raise TypeError
  ∧ compose_url_from_env Sample.json_loads
      (Sample.env (Some "http://example.com/fallback") (Some "[]"))
    = Raise TypeError.
Proof.
  split.
  - apply (non_object_message (VStr "nightly")). reflexivity.
  - apply (non_object_message (VList [])); reflexivity.
Defined.

(** C10. A branch that does split into three segments, but whose version
    segment is not the text of a float, makes the branch tier raise the
    error of the float conversion, whatever the template: so for
    "private-foo-rhel-7" ([ValueError]) with a template that is not null and
    has the three placeholders. *)
Theorem version_not_a_float (d : gmap string value)
    (b name version distro : string) (e : exn) (template : option string) :
  d !! "compose_url" = None →
  d !! "branch" = Some (VStr b) →
  PyStr.split "-" 2 b = [name; version; distro] →
  PyFloat.of_string version = Raise e →
  parse_ci_message (VDict d) template = Raise e.
Proof.
  intros Hu Hb Hs Hf. unfold parse_ci_message, getitem, split_branch.
  rewrite Hu, Hb. cbn [mbind outcome_bind]. rewrite Hs.
  cbn [unpack3 mbind outcome_bind]. by rewrite Hf.
Qed.

Lemma version_not_a_float_witness :
  parse_ci_message (VDict {["branch" := VStr "private-foo-rhel-7"]})
    (Some "http://x/%(branch)s/%(major)s/%(distro)s")
  = Raise ValueError.
Proof.
  apply (version_not_a_float {["branch" := VStr "private-foo-rhel-7"]}
           "private-foo-rhel-7" "private" "foo" "rhel-7" ValueError
           (Some "http://x/%(branch)s/%(major)s/%(distro)s")).
  - reflexivity.
  - reflexivity.
  - reflexivity.
  - vm_compute. reflexivity.
Defined.

(** ** BuildOrchestrator *)

(** *** Runs of the pipeline *)

Lemma bind_ok {A B} (c : M A) (k : A → M B) w r w' :
  (c ≫= k) w = (Ok r, w') →
  ∃ a w1, c w = (Ok a, w1) ∧ k a w1 = (Ok r, w').
Proof.
  unfold mbind, M_bind. destruct (c w) as [[a|e] w1]; [|discriminate].
  intros H. by exists a, w1.
Qed.

Lemma lift_ok {A} (c : outcome A) w a w' :
  lift c w = (Ok a, w') → c = Ok a ∧ w' = w.
Proof. unfold lift. by intros [= -> ->]. Qed.

Lemma log_info_ok template a w r w' :
  log_info template a w = (r, w') → writes w' = writes w.
Proof. unfold log_info. by intros [= _ <-]. Qed.

Ltac bind_inv H :=
  let a := fresh "a" in
  let w := fresh "w" in
  let Hc := fresh "Hc" in
  apply bind_ok in H as (a & w & Hc & H).

#[global] Instance key_le_total : Total key_le.
Proof. intros p q. apply (total String.le). Qed.

#[global] Instance key_le_trans : Transitive key_le.
Proof. intros p q r. unfold key_le. apply transitivity. Qed.

Lemma sorted_items_sorted (d : gmap string value) :
  StronglySorted key_le (sorted_items d).
Proof. apply StronglySorted_merge_sort; apply _. Qed.

Lemma sorted_items_perm (d : gmap string value) :
  sorted_items d ≡ₚ map_to_list d.
Proof. apply merge_sort_Permutation. Qed.

(** *** Collaborators for the examples: every call succeeds, the build
        returns the given repositories, and only the paths accepted by
        [can_write] can be opened for writing. *)
Module Demo.

Definition koji_section : gmap string value :=
  list_to_map
    [ ("hub", VStr "https://koji.example.com/kojihub");
      ("web", VStr "https://koji.example.com/koji");
      ("krbservice", VStr "koji");
      ("scm", VStr "git://pkgs.example.com/containers/rhceph");
      ("target", VStr "ceph-3.0-rhel-7-containers-candidate") ].

Definition lookup (section key : string) (fatal : bool) : outcome value :=
  if String.eqb key "parent_image" then Ok VNone
  else Ok (VStr (section +:+ "." +:+ key)).

Definition the_compose : compose :=
  {| release_short := "RHCEPH";
     release_version := "3.0";
     compose_id := "RHCEPH-3.0-RHEL-7-20180101.0";
     base_product := None |}.

Fixpoint encode (v : value) : string :=
  match v with
  | VNone => "null"
  | VBool b => if b then "true" else "false"
  | VInt n => PyStr.of_Z n
  | VStr s => Sample.quoted s
  | VList l => "[" +:+ join ", " (map encode l) +:+ "]"
  | VFloat _ | VDict _ => "null"
  end.

(** [str] beyond the scalars: a list of texts as Python 2 prints it, text
    that is not ASCII taken for a unicode string. *)
Definition str_rest (v : value) : outcome string :=
  match v with
  | VList l =>
      Ok ("[" +:+ join ", "
                    (map (λ x, "u'" +:+ default "" (str_scalar x) +:+ "'") l)
          +:+ "]")
  | VStr _ => Raise UnicodeEncodeError
  | _ => Ok ""
  end.

Lemma items_perm (d : gmap string value) (items : list (string * value)) :
  Ok (map_to_list d) = Ok items → items ≡ₚ map_to_list d.
Proof. by intros [= <-]. Qed.

Definition collab (repos : list value) (can_write : string → bool)
    : collaborators :=
  {| Config := unit;
     Koji := unit;
     Registry := unit;
     config_load := Ok ();
     config_lookup := λ _, lookup;
     config_items := λ _ section _,
       Ok (if String.eqb section "koji" then koji_section else ∅);
     RepoCompose := λ _ _, Ok the_compose;
     write_yum_repo_file := λ _,
       Ok ("/tmp/tmp0/rhceph.repo", "[rhceph]" +:+ String "010" "");
     publish := λ p path, Ok (VStr ("http://example.com/published" +:+ path));
     KojiBuilder := λ _ _ _, Ok ();
     koji_build_container := λ _ _ _ _ _ _ _, Ok (VInt 1234);
     watch_task := λ _ _, Ok ();
     get_repositories := λ _ _, Ok repos;
     new_Registry := λ _, Ok ();
     registry_build := λ _ image, Ok image;
     mkdtemp := λ suffix n, "/tmp/tmp" +:+ PyStr.of_Z (Z.of_nat n) +:+ suffix;
     writable := can_write;
     json_encode := encode;
     str_other := str_rest;
     dict_iteritems := λ d, Ok (map_to_list d);
     dict_iteritems_perm := items_perm |}.

Definition one_repo : list value :=
  [VStr "registry.example.com/rhceph:ceph-3.0-rhel-7"].

Definition env (workspace : option string) : environ :=
  {| COMPOSE_URL := None;
     CI_MESSAGE := Some (Sample.object1 "compose_url" "http://example.com/foo");
     WORKSPACE := workspace |}.

Definition anywhere (path : string) : bool := true.


End Demo.

(** The result of [build_container], read back key by key. *)
Definition collected (result : gmap string value) (task_id : value)
    (repositories : list value) : Prop :=
  result !! "koji_task" = Some task_id
  ∧ match repositories with
    | [r] => result !! "repository" = Some r ∧ result !! "repositories" = None
    | _ =>
        result !! "repositories" = Some (VList repositories)
        ∧ result !! "repository" = None
    end.

Lemma collect_result_collected task_id repositories :
  collected (collect_result task_id repositories) task_id repositories.
Proof.
  unfold collected, collect_result.
  destruct repositories as [|r [|r' rs]]; by simplify_map_eq.
Qed.

Lemma build_container_collects (C : collaborators) (repo_url : value)
    (branch : string) (parent : value) (configp : Config C)
    (w w' : world) (result : gmap string value) :
  build_container C repo_url branch parent configp w = (Ok result, w') →
  ∃ koji task_id repositories,
    get_repositories C koji task_id = Ok repositories
    ∧ result = collect_result task_id repositories.
Proof.
  intros Hrun. unfold build_container in Hrun.
  do 12 bind_inv Hrun.
  injection Hrun as <- <-.
  match goal with
  | Hr : lift (get_repositories C ?k ?t) _ = (Ok ?rs, _) |- _ =>
      apply lift_ok in Hr as [Hr _]; by exists k, t, rs
  end.
Qed.

(** C1. Every result that [build_container] returns was collected from the
    repositories that the build system returned for the task: with exactly
    one repository the result has it under "repository" and has no
    "repositories"; with none, or with two or more, the result has the whole
    list, in the order returned, under "repositories" and has no
    "repository". *)
Theorem cardinality_collapse (C : collaborators) (repo_url : value)
    (branch : string) (parent : value) (configp : Config C)
    (w w' : world) (result : gmap string value) :
  build_container C repo_url branch parent configp w = (Ok result, w') →
  ∃ koji task_id repositories,
    get_repositories C koji task_id = Ok repositories
    ∧ result !! "koji_task" = Some task_id
    ∧ match repositories with
      | [r] =>
          result !! "repository" = Some r ∧ result !! "repositories" = None
      | _ =>
          result !! "repositories" = Some (VList repositories)
          ∧ result !! "repository" = None
      end.
Proof.
  intros Hrun.
  apply build_container_collects in Hrun as (koji & task_id & repos & Hr & ->).
  exists koji, task_id, repos. split; [exact Hr|].
  apply collect_result_collected.
Qed.

Lemma cardinality_collapse_witness :
  ∃ koji task_id repositories,
    get_repositories (Demo.collab Demo.one_repo Demo.anywhere) koji task_id
    = Ok repositories
    ∧ collect_result (VInt 1234) Demo.one_repo !! "koji_task" = Some task_id
    ∧ match repositories with
      | [r] =>
          collect_result (VInt 1234) Demo.one_repo !! "repository" = Some r
          ∧ collect_result (VInt 1234) Demo.one_repo !! "repositories" = None
      | _ =>
          collect_result (VInt 1234) Demo.one_repo !! "repositories"
          = Some (VList repositories)
          ∧ collect_result (VInt 1234) Demo.one_repo !! "repository" = None
      end.
Proof.
  apply (cardinality_collapse (Demo.collab Demo.one_repo Demo.anywhere)
           (VStr "http://example.com/published/tmp/tmp0/rhceph.repo")
           "ceph-3.0-rhel-7" VNone () empty_world
           {| writes := [];
              logged := [("Building container at %s",
                          [VStr "https://koji.example.com/kojihub"])];
              tmpdirs := 0 |}).
  vm_compute. reflexivity.
Defined.

Lemma open_write_run (C : collaborators) path content w :
  open_write C path content w
  = if writable C path
    then (Ok (), {| writes := writes w ++ [(path, content)];
                    logged := logged w; tmpdirs := tmpdirs w |})
    else (Raise IOError, w).
Proof. reflexivity. Qed.

Lemma bind_run {A B} (c : M A) (k : A → M B) w :
  (c ≫= k) w
  = match c w with
    | (Ok a, w') => k a w'
    | (Raise e, w') => (Raise e, w')
    end.
Proof. reflexivity. Qed.

Lemma write_metadata_file_run (C : collaborators) filename kwargs w :
  write_metadata_file C filename kwargs w
  = let path := path_join (mkdtemp C ".json" (tmpdirs w)) filename in
    let made := {| writes := writes w; logged := logged w;
                   tmpdirs := S (tmpdirs w) |} in
    if writable C path
    then (Ok path,
          {| writes :=
               writes w
               ++ [(path, json_object (json_value C) (sorted_items kwargs))];
             logged := logged w; tmpdirs := S (tmpdirs w) |})
    else (Raise IOError, made).
Proof.
  unfold write_metadata_file, make_tmpdir. rewrite bind_run, bind_run.
  rewrite open_write_run. cbn [writes logged tmpdirs].
  by destruct (writable C _).
Qed.

Lemma text_assoc a b c : (a +:+ b) +:+ c = a +:+ (b +:+ c).
Proof. induction a as [|x a IH]; [done|]. by rewrite !app_cons, IH. Qed.

(** *** The runs that log *)

(** The world after some more log lines. *)
Definition noted (w : world) (lines : list (string * list value)) : world :=
  {| writes := writes w; logged := logged w ++ lines; tmpdirs := tmpdirs w |}.

Ltac run_step :=
  cbv [mbind M_bind mret M_ret log_info lift outcome_bind noted];
  cbn [writes logged tmpdirs].

Ltac logged_leaf :=
  eexists; run_step; rewrite <- ?app_assoc; reflexivity.

(** The run of [parse_ci_message] returns the result of [parse_ci_message]
    and only logs; its first line is logged whatever the message is. *)
Lemma parse_ci_message_logged_run msg compose_url w :
  ∃ lines,
    parse_ci_message_logged msg compose_url w
    = (parse_ci_message msg compose_url,
       noted w (("Parsing CI_MESSAGE: %s", [msg]) :: lines)).
Proof.
  unfold parse_ci_message_logged, parse_ci_message. run_step.
  destruct (getitem msg "compose_url") as [v|[]]; run_step; try logged_leaf.
  destruct (getitem msg "branch") as [branch|[]]; run_step; try logged_leaf.
  destruct (split_branch branch) as [parts|]; run_step; [|logged_leaf].
  destruct (unpack3 parts) as [[[? version] distro]|]; run_step;
    [|logged_leaf].
  destruct (PyFloat.of_string version) as [f|]; run_step; [|logged_leaf].
  destruct (PyFloat.to_int f) as [major|]; run_step; [|logged_leaf].
  destruct (py_mod compose_url _) as [result|]; run_step; logged_leaf.
Qed.

Lemma compose_url_from_env_logged_run json_loads env w :
  ∃ lines,
    compose_url_from_env_logged json_loads env w
    = (compose_url_from_env json_loads env, noted w lines).
Proof.
  unfold compose_url_from_env_logged, compose_url_from_env.
  destruct (json_loads _) as [msg|].
  - destruct (parse_ci_message_logged_run msg
                (if String.eqb (default "" (COMPOSE_URL env)) ""
                 then None else Some (default "" (COMPOSE_URL env))) w)
      as [lines ->]. by eexists.
  - exists []. unfold noted. rewrite app_nil_r. by destruct w.
Qed.

(** What [parse_args] returns, and that it only logs. *)
Lemma parse_args_run json_loads cli env w :
  ∃ lines,
    parse_args json_loads cli env w
    = (match compose_url_from_env json_loads env with
       | Ok from_env =>
           Ok (match cli with
               | Some url => VStr url
               | None => from_env
               end)
       | Raise e => Raise e
       end,
       noted w lines).
Proof.
  unfold parse_args. rewrite bind_run.
  destruct (compose_url_from_env_logged_run json_loads env w) as [lines ->].
  exists lines. by destruct (compose_url_from_env json_loads env).
Qed.

(** The writes of a run only grow in [write_props_file]. *)
Lemma write_props_file_writes (C : collaborators) env kwargs w r w' :
  write_props_file C env kwargs w = (r, w') →
  ∃ rest, writes w' = writes w ++ rest.
Proof.
  unfold write_props_file. destruct (WORKSPACE env) as [ws|].
  - rewrite bind_run. unfold log_info, write_through. cbn [writes].
    destruct (writable C _); intros [= _ <-]; cbn [writes]; eauto.
    exists []. by rewrite app_nil_r.
  - intros [= _ <-]. exists []. by rewrite app_nil_r.
Qed.

Lemma collected_exactly_one result task_id repositories :
  collected result task_id repositories →
  is_Some (result !! "repository") ↔ ¬ is_Some (result !! "repositories").
Proof.
  intros [_ H].
  destruct repositories as [|r [|r' rs]]; destruct H as [-> ->]; split;
    try (by intros [? [=]]); try (by intros _ [? [=]]); try (by eauto);
    intros Hn; contradiction Hn; eauto.
Qed.

(** The result of a completed build stage was collected by
    [build_container]. *)
Lemma build_stage_collects (C : collaborators) json_loads cli env w0 w1
    compose_url p c result :
  build_stage C json_loads cli env w0 = (Ok (compose_url, p, c, result), w1) →
  ∃ task_id repositories, result = collect_result task_id repositories.
Proof.
  intros Hb. unfold build_stage in Hb. do 13 bind_inv Hb.
  injection Hb as <- <- <- <- <-.
  match goal with
  | Hr : build_container _ _ _ _ _ _ = _ |- _ =>
      apply build_container_collects in Hr as (? & t & rs & _ & ->)
  end.
  by exists t, rs.
Qed.

(** The members of the metadata of a run, in the order of their keys. *)
Lemma sorted_items_metadata (key : string) (id url task_id r : value) :
  key = "repository" ∨ key = "repositories" →
  sorted_items
    (<["compose_id" := id]>
       (<["compose_url" := url]> (<[key := r]> {["koji_task" := task_id]})))
  = [("compose_id", id); ("compose_url", url); ("koji_task", task_id);
     (key, r)].
Proof. intros [-> | ->]; vm_compute; reflexivity. Qed.

Lemma metadata_shape (task_id : value) (repositories : list value)
    (compose_url : value) (c : compose) :
  ∃ key r,
    (key = "repository" ∨ key = "repositories")
    ∧ (match repositories with
       | [x] => key = "repository" ∧ r = x
       | _ => key = "repositories" ∧ r = VList repositories
       end)
    ∧ assemble_metadata (collect_result task_id repositories) compose_url c
      = <["compose_id" := VStr (compose_id c)]>
          (<["compose_url" := compose_url]>
             (<[key := r]> {["koji_task" := task_id]})).
Proof.
  unfold assemble_metadata, collect_result.
  destruct repositories as [|x [|x' xs]].
  - exists "repositories", (VList []). auto.
  - exists "repository", x. auto.
  - exists "repositories", (VList (x :: x' :: xs)). auto.
Qed.

Module DemoRun.

Definition C : collaborators := Demo.collab Demo.one_repo Demo.anywhere.

Definition the_publisher : publisher :=
  {| push_url := VStr "publish.push"; http_url := VStr "publish.http" |}.

Definition based_compose : compose :=
  set_base_product Demo.the_compose
    (VStr "ceph-3.0-rhel-7-base.url") (VStr "ceph-3.0-rhel-7-base.gpgkey")
    (VStr "ceph-3.0-rhel-7-base.extras") VNone.

Definition result : gmap string value :=
  collect_result (VInt 1234) Demo.one_repo.

Definition after_build : world :=
  {| writes := [("/tmp/tmp0/rhceph.repo", "[rhceph]" +:+ String "010" "")];
     logged :=
       [("Parsing CI_MESSAGE: %s",
         [VDict {["compose_url" := VStr "http://example.com/foo"]}]);
        ("Generating .repo file for %s compose", [VStr "RHCEPH"]);
        ("Publishing .repo file to %s", [VStr "publish.push"]);
        ("Published %s",
         [VStr "http://example.com/published/tmp/tmp0/rhceph.repo"]);
        ("Building container at %s",
         [VStr "https://koji.example.com/kojihub"])];
     tmpdirs := 0 |}.

End DemoRun.

Lemma known_keys (key : string) :
  key ∈ ["compose_id"; "compose_url"; "koji_task"; "repository";
         "repositories"] →
  PyJson.encode_basestring_ascii key = quoted key.
Proof.
  rewrite !elem_of_cons, elem_of_nil.
  intros [->|[->|[->|[->|[->|[]]]]]]; vm_compute; reflexivity.
Qed.

(** C7. When the build stage of a run has completed, the metadata that
    [main] assembles has the keys "compose_url" and "compose_id", next to
    the task identifier and to exactly one of "repository" and
    "repositories".  The JSON metadata file is the next file the run writes
    (the run stops with [IOError] when it cannot be opened), and its text
    is an object whose members stand in ascending order of their keys:
    compose_id, compose_url, koji_task, then repository or repositories,
    each as the key between double quotes, a colon and the JSON text of the
    value, separated by commas.  The run of the example writes
    {"compose_id": "RHCEPH-3.0-RHEL-7-20180101.0", "compose_url":
    "http://example.com/foo", "koji_task": 1234, "repository":
    "registry.example.com/rhceph:ceph-3.0-rhel-7"}. *)
Theorem metadata_keys_sorted (C : collaborators)
    (json_loads : string → option value) (cli : option string)
    (env : environ) (w0 w1 : world) (compose_url : value) (p : publisher)
    (c : compose) (result : gmap string value) :
  build_stage C json_loads cli env w0 = (Ok (compose_url, p, c, result), w1) →
  let metadata := assemble_metadata result compose_url c in
  let path :=
    path_join (mkdtemp C ".json" (tmpdirs w1)) (compose_id c +:+ "-osbs.json") in
  let run := main C json_loads cli env w0 in
  let member := λ (key : string) (v : value),
    quoted key +:+ ": " +:+ json_value C v in
  metadata !! "compose_url" = Some compose_url
  ∧ metadata !! "compose_id" = Some (VStr (compose_id c))
  ∧ is_Some (metadata !! "koji_task")
  ∧ (is_Some (metadata !! "repository")
     ↔ ¬ is_Some (metadata !! "repositories"))
  ∧ StronglySorted key_le (sorted_items metadata)
  ∧ sorted_items metadata ≡ₚ map_to_list metadata
  ∧ writes (main DemoRun.C Sample.json_loads None (Demo.env None)
              empty_world).2 !! 1%nat
    = Some ("/tmp/tmp0.json/RHCEPH-3.0-RHEL-7-20180101.0-osbs.json",
            "{" +:+ quoted "compose_id" +:+ ": "
            +:+ quoted "RHCEPH-3.0-RHEL-7-20180101.0" +:+ ", "
            +:+ quoted "compose_url" +:+ ": "
            +:+ quoted "http://example.com/foo" +:+ ", "
            +:+ quoted "koji_task" +:+ ": 1234, "
            +:+ quoted "repository" +:+ ": "
            +:+ quoted "registry.example.com/rhceph:ceph-3.0-rhel-7"
            +:+ "}")
  ∧ ∃ task_id key r,
      metadata !! "koji_task" = Some task_id
      ∧ metadata !! key = Some r
      ∧ (key = "repository" ∨ key = "repositories")
      ∧ String.ltb "compose_id" "compose_url" = true
      ∧ String.ltb "compose_url" "koji_task" = true
      ∧ String.ltb "koji_task" key = true
      ∧ if writable C path
        then ∃ rest,
            writes run.2
            = writes w1
              ++ (path,
                  "{" +:+ member "compose_id" (VStr (compose_id c))
                  +:+ ", " +:+ member "compose_url" compose_url
                  +:+ ", " +:+ member "koji_task" task_id
                  +:+ ", " +:+ member key r +:+ "}")
              :: rest
        else run = (Raise IOError,
                    {| writes := writes w1; logged := logged w1;
                       tmpdirs := S (tmpdirs w1) |}).
Proof.
  intros Hb metadata path run member.
  destruct (build_stage_collects _ _ _ _ _ _ _ _ _ _ Hb)
    as (task_id & repos & ->).
  pose proof (collect_result_collected task_id repos) as [Ht Hr].
  split; [by subst metadata; unfold assemble_metadata; simplify_map_eq|].
  split; [by subst metadata; unfold assemble_metadata; simplify_map_eq|].
  split.
  { subst metadata. unfold assemble_metadata.
    rewrite !lookup_insert_ne by done. by rewrite Ht. }
  split.
  { subst metadata. unfold assemble_metadata.
    rewrite !lookup_insert_ne by done.
    by apply (collected_exactly_one _ task_id repos). }
  split; [apply sorted_items_sorted|].
  split; [apply sorted_items_perm|].
  split; [by vm_compute|].
  destruct (metadata_shape task_id repos compose_url c)
    as (key & r & Hkey & _ & Hm).
  exists task_id, key, r.
  assert (key ≠ "koji_task" ∧ key ≠ "compose_url" ∧ key ≠ "compose_id")
    as (H1 & H2 & H3) by (destruct Hkey as [-> | ->]; done).
  split.
  { subst metadata. rewrite Hm. rewrite !lookup_insert_ne by done.
    apply lookup_singleton_eq. }
  split.
  { subst metadata. rewrite Hm. rewrite !lookup_insert_ne by done.
    apply lookup_insert_eq. }
  split; [done|]. split; [done|]. split; [done|].
  split; [by destruct Hkey as [-> | ->]|].
  assert (json_object (json_value C) (sorted_items metadata)
          = "{" +:+ member "compose_id" (VStr (compose_id c))
            +:+ ", " +:+ member "compose_url" compose_url
            +:+ ", " +:+ member "koji_task" task_id
            +:+ ", " +:+ member key r +:+ "}") as Htext.
  { subst metadata. rewrite Hm, sorted_items_metadata by done.
    unfold json_object. cbn [map join fst snd].
    rewrite !known_keys by (destruct Hkey as [-> | ->]; set_solver).
    fold (member key r).
    fold (member "compose_id" (VStr (compose_id c))).
    fold (member "compose_url" compose_url).
    fold (member "koji_task" task_id).
    by rewrite !text_assoc. }
  subst run. unfold main. rewrite bind_run, Hb.
  unfold publish_stage. fold metadata.
  rewrite bind_run, write_metadata_file_run. cbv zeta. fold path.
  rewrite Htext.
  destruct (writable C path); [|reflexivity].
  rewrite bind_run.
  match goal with
  | |- context [lift ?x ?y] => destruct x as [url|e]
  end; cbn [lift]; [|by exists []].
  rewrite bind_run. unfold log_info at 1.
  match goal with
  | |- context [write_props_file ?C ?e ?m ?w] =>
      destruct (write_props_file C e m w) as [r' w2] eqn:Hp
  end.
  apply write_props_file_writes in Hp as [rest Hp]. cbn [writes] in Hp.
  exists rest. cbn [snd]. by rewrite Hp, <- app_assoc.
Qed.

Lemma metadata_keys_sorted_witness :
  assemble_metadata DemoRun.result (VStr "http://example.com/foo")
    DemoRun.based_compose !! "compose_url"
  = Some (VStr "http://example.com/foo").
Proof.
  refine (proj1 (metadata_keys_sorted DemoRun.C Sample.json_loads None
                   (Demo.env None) empty_world DemoRun.after_build
                   (VStr "http://example.com/foo") DemoRun.the_publisher
                   DemoRun.based_compose DemoRun.result _)).
  vm_compute. reflexivity.
Defined.





Example props_file_written :
  main DemoRun.C Sample.json_loads None (Demo.env (Some "/workspace"))
    empty_world
  = (Ok (),
     {| writes :=
          [("/tmp/tmp0/rhceph.repo", "[rhceph]" +:+ String "010" "");
           ("/tmp/tmp0.json/RHCEPH-3.0-RHEL-7-20180101.0-osbs.json",
            "{" +:+ quoted "compose_id" +:+ ": "
            +:+ quoted "RHCEPH-3.0-RHEL-7-20180101.0" +:+ ", "
            +:+ quoted "compose_url" +:+ ": "
            +:+ quoted "http://example.com/foo" +:+ ", "
            +:+ quoted "koji_task" +:+ ": 1234, "
            +:+ quoted "repository" +:+ ": "
            +:+ quoted "registry.example.com/rhceph:ceph-3.0-rhel-7"
            +:+ "}");
           ("/workspace/osbs.props",
            String.concat (String "010" "")
              ["KOJI_TASK=1234";
               "COMPOSE_URL=http://example.com/foo";
               "COMPOSE_ID=RHCEPH-3.0-RHEL-7-20180101.0";
               "REPOSITORY=registry.example.com/rhceph:ceph-3.0-rhel-7";
               ""])];
        logged :=
          logged DemoRun.after_build
          ++ [("OSBS JSON data at %s",
               [VStr ("http://example.com/published/tmp/tmp0.json/"
                      +:+ "RHCEPH-3.0-RHEL-7-20180101.0-osbs.json")]);
              ("WORKSPACE detected, writing osbs.props for Jenkins", [])];
        tmpdirs := 1 |}).
Proof. vm_compute. reflexivity. Qed.

(** * Further properties of the code *)

(** ** Text: counting, cutting and reversing *)

(** [s.count(sep)] for a one-character separator. *)
Fixpoint count_char (sep : ascii) (s : string) : nat :=
  match s with
  | EmptyString => 0
  | String c r => (if Ascii.eqb c sep then 1 else 0) + count_char sep r
  end.

Lemma cut_none sep s : PyStr.cut sep s = None → count_char sep s = 0%nat.
Proof.
  induction s as [|c s IH]; [done|]. cbn [PyStr.cut count_char].
  destruct (Ascii.eqb c sep); [done|].
  destruct (PyStr.cut sep s) as [[a b]|]; [done|]. intros _. by rewrite IH.
Qed.

Lemma cut_some sep s a r :
  PyStr.cut sep s = Some (a, r) →
  s = a +:+ String sep r
  ∧ PyStr.char_in sep a = false
  ∧ count_char sep s = S (count_char sep r).
Proof.
  revert a. induction s as [|c s IH]; intros a; [done|].
  cbn [PyStr.cut count_char PyStr.char_in].
  destruct (Ascii.eqb c sep) eqn:Hc.
  - intros [= <- <-]. apply Ascii.eqb_eq in Hc as ->. done.
  - destruct (PyStr.cut sep s) as [[a' b]|]; [|done].
    intros [= <- <-]. destruct (IH a' eq_refl) as (-> & Ha & Hn).
    cbn [PyStr.char_in]. rewrite Ascii.eqb_sym, Hc, Ha, Hn. done.
Qed.

(** [len(s.split(sep, n)) == min(n, s.count(sep)) + 1] *)
Lemma split_length sep n s :
  length (PyStr.split sep n s) = S (Nat.min n (count_char sep s)).
Proof.
  revert s. induction n as [|n IH]; intros s; [done|].
  cbn [PyStr.split]. destruct (PyStr.cut sep s) as [[a r]|] eqn:Hcut.
  - apply cut_some in Hcut as (_ & _ & ->). cbn [length]. by rewrite IH.
  - apply cut_none in Hcut as ->. by rewrite Nat.min_0_r.
Qed.

(** A split into three gives back the branch, and the first two segments
    have no dash. *)
Lemma split_three_inv b name version distro :
  PyStr.split "-" 2 b = [name; version; distro] →
  b = name +:+ "-" +:+ version +:+ "-" +:+ distro
  ∧ PyStr.char_in "-" name = false
  ∧ PyStr.char_in "-" version = false.
Proof.
  cbn [PyStr.split].
  destruct (PyStr.cut "-" b) as [[a r]|] eqn:H1; [|done].
  destruct (PyStr.cut "-" r) as [[a' r']|] eqn:H2; [|done].
  intros [= <- <- <-].
  apply cut_some in H1 as (-> & Ha & _). apply cut_some in H2 as (-> & Ha' & _).
  done.
Qed.

Lemma app_nil_r s : s +:+ "" = s.
Proof. induction s as [|c s IH]; [done|]. by rewrite app_cons, IH. Qed.


Lemma rev_app_app a b c :
  String.rev_app (String.rev_app a b) c = String.rev_app b (a +:+ c).
Proof.
  revert b c. induction a as [|x a IH]; intros b c; [done|].
  cbn [String.rev_app]. by rewrite IH.
Qed.

Lemma rev_involutive s : String.rev (String.rev s) = s.
Proof. unfold String.rev. by rewrite rev_app_app, app_nil_r. Qed.

Lemma char_in_rev_app c a b :
  PyStr.char_in c (String.rev_app a b) = PyStr.char_in c a || PyStr.char_in c b.
Proof.
  revert b. induction a as [|x a IH]; intros b; [done|].
  cbn [String.rev_app PyStr.char_in]. rewrite IH. cbn [PyStr.char_in].
  by destruct (Ascii.eqb c x), (PyStr.char_in c a), (PyStr.char_in c b).
Qed.

Lemma char_in_rev c s : PyStr.char_in c (String.rev s) = PyStr.char_in c s.
Proof. unfold String.rev. rewrite char_in_rev_app. apply orb_false_r. Qed.

(** ** ComposeURLResolver: the edges of the branch tier *)

(** X1. A message without "compose_url" whose "branch" is not text (a
    number, null, a list, an object) makes resolution raise
    [AttributeError] at [branch.split], whatever the template. *)
Theorem branch_not_text (d : gmap string value) (v : value)
    (template : option string) :
  d !! "compose_url" = None →
  d !! "branch" = Some v →
  (∀ s, v ≠ VStr s) →
  parse_ci_message (VDict d) template = Raise AttributeError.
Proof.
  intros Hu Hb Hv. unfold parse_ci_message, getitem. rewrite Hu, Hb.
  destruct v; try done. by destruct (Hv s).
Qed.

Lemma branch_not_text_witness :
  parse_ci_message (VDict {["branch" := VInt 3]}) (Some "http://x/%(branch)s")
  = Raise AttributeError.
Proof.
  apply (branch_not_text {["branch" := VInt 3]} (VInt 3)
           (Some "http://x/%(branch)s")).
  - reflexivity.
  - reflexivity.
  - discriminate.
Defined.

(** X2. A branch with fewer than two dashes cannot be unpacked into three
    segments: resolution raises [ValueError], whatever the template; with
    two dashes or more the split always has three segments. *)
Theorem branch_needs_two_dashes (d : gmap string value) (b : string) :
  d !! "compose_url" = None →
  d !! "branch" = Some (VStr b) →
  (count_char "-" b < 2 →
   ∀ template, parse_ci_message (VDict d) template = Raise ValueError)
  ∧ (2 ≤ count_char "-" b → length (PyStr.split "-" 2 b) = 3%nat).
Proof.
  intros Hu Hb. split.
  - intros Hn template. unfold parse_ci_message, getitem, split_branch.
    rewrite Hu, Hb. cbn [mbind outcome_bind].
    rewrite unpack3_length; [done|]. rewrite split_length. lia.
  - intros Hn. rewrite split_length. lia.
Qed.

Lemma branch_needs_two_dashes_witness :
  parse_ci_message (VDict {["branch" := VStr "master"]})
    (Some "http://x/%(branch)s")
  = Raise ValueError.
Proof.
  refine (proj1 (branch_needs_two_dashes {["branch" := VStr "master"]}
                   "master" _ _) _ _).
  - reflexivity.
  - reflexivity.
  - vm_compute. lia.
Defined.

(** ** The major version: [int(float(version))] *)

Section FloatFacts.
Local Open Scope Z_scope.

Lemma digit_range c d : PyFloat.digit c = Some d → 0 ≤ d ≤ 9.
Proof.
  unfold PyFloat.digit.
  destruct (_ <=? _) eqn:H1; [|done]. destruct (_ <=? 57) eqn:H2; [|done].
  intros [= <-]. lia.
Qed.

Lemma digits_nonneg s acc cnt n k r :
  0 ≤ acc → PyFloat.digits s acc cnt = (n, k, r) → 0 ≤ n.
Proof.
  revert acc cnt. induction s as [|c s IH]; intros acc cnt Hacc.
  - by intros [= <- _ _].
  - cbn [PyFloat.digits]. destruct (PyFloat.digit c) as [d|] eqn:Hd.
    + apply digit_range in Hd. apply IH. lia.
    + by intros [= <- _ _].
Qed.

(** The two halves of [decimal]: the optional fraction, and the check of
    the digit count with the optional exponent. *)
Definition fraction (ip : Z) (s1 : string) : Z * nat * string :=
  match s1 with
  | String "." r => PyFloat.digits r ip O
  | _ => (ip, O, s1)
  end.

Definition exponent (ni : nat) (m : Z) (nf : nat) (s2 : string)
    : option (Z * Z) :=
  if (ni + nf =? 0)%nat then None
  else match s2 with
       | EmptyString => Some (m, - Z.of_nat nf)
       | String c r =>
           if PyStr.char_in c "eE" then
             let '(eneg, r1) := PyFloat.sign r in
             let '(ev, ne, r2) := PyFloat.digits r1 0 O in
             if (ne =? 0)%nat then None
             else match r2 with
                  | EmptyString =>
                      Some (m, (if eneg then - ev else ev) - Z.of_nat nf)
                  | String _ _ => None
                  end
           else None
       end.

Lemma decimal_halves s :
  PyFloat.decimal s
  = let '(ip, ni, s1) := PyFloat.digits s 0 O in
    let '(m, nf, s2) := fraction ip s1 in
    exponent ni m nf s2.
Proof. reflexivity. Qed.

Lemma fraction_nonneg ip s1 m nf s2 :
  0 ≤ ip → fraction ip s1 = (m, nf, s2) → 0 ≤ m.
Proof.
  intros Hip. unfold fraction. destruct s1 as [|c r]; [by intros [= <- _ _]|].
  destruct c as [[] [] [] [] [] [] [] []]; try by intros [= <- _ _].
  by apply digits_nonneg.
Qed.

Lemma exponent_significand ni m nf s2 m' e :
  exponent ni m nf s2 = Some (m', e) → m' = m.
Proof.
  unfold exponent. destruct (_ =? _)%nat; [done|].
  destruct s2 as [|c r]; [by intros [= <- _]|].
  destruct (PyStr.char_in c "eE"); [|done].
  destruct (PyFloat.sign r) as [eneg r1].
  destruct (PyFloat.digits r1 0 0) as [[ev ne] r2].
  destruct (_ =? _)%nat; [done|]. destruct r2; [|done]. by intros [= <- _].
Qed.

(** The significand that [decimal] reads is never negative. *)
Lemma decimal_nonneg s m e : PyFloat.decimal s = Some (m, e) → 0 ≤ m.
Proof.
  rewrite decimal_halves.
  destruct (PyFloat.digits s 0 0) as [[ip ni] s1] eqn:H1.
  apply digits_nonneg in H1; [|done].
  destruct (fraction ip s1) as [[m1 nf] s2] eqn:H2.
  apply fraction_nonneg in H2; [|done].
  by intros ->%exponent_significand.
Qed.

Lemma round_half_even_nonneg num den :
  0 ≤ num → 0 < den → 0 ≤ PyFloat.round_half_even num den.
Proof.
  intros Hn Hd. unfold PyFloat.round_half_even.
  pose proof (Z.div_pos num den Hn Hd).
  destruct (_ ?= _); [destruct (Z.even _)|..]; lia.
Qed.

Lemma scaled_sign num den k n d :
  0 ≤ num → 0 < den → PyFloat.scaled num den k = (n, d) → 0 ≤ n ∧ 0 < d.
Proof.
  intros Hn Hd. unfold PyFloat.scaled. destruct (0 <=? k) eqn:Hk.
  - intros [= <- <-]. split; [done|].
    apply Z.mul_pos_pos; [done|]. apply Z.pow_pos_nonneg; lia.
  - intros [= <- <-]. split; [|done].
    apply Z.mul_nonneg_nonneg; [done|]. apply Z.pow_nonneg. lia.
Qed.

Lemma nearest_sign neg num den neg' m e :
  0 ≤ num → 0 < den →
  PyFloat.nearest neg num den = FFinite neg' m e → neg' = neg ∧ 0 ≤ m.
Proof.
  intros Hn Hd. unfold PyFloat.nearest.
  destruct (num =? 0); [by intros [= <- <- _]|].
  destruct (PyFloat.scaled num den _) as [n0 d0].
  match goal with
  | |- context [PyFloat.scaled num den ?k] =>
      destruct (PyFloat.scaled num den k) as [n1 d1] eqn:Hs
  end.
  apply scaled_sign in Hs as [? ?]; [|done..].
  destruct (_ && _); [done|]. intros [= <- <- _].
  split; [done|]. by apply round_half_even_nonneg.
Qed.

Lemma to_int_nonneg m e major :
  0 ≤ m → PyFloat.to_int (FFinite false m e) = Ok major → 0 ≤ major.
Proof.
  intros Hm. cbn [PyFloat.to_int]. intros [= <-].
  destruct (0 <=? e) eqn:He.
  - apply Z.mul_nonneg_nonneg; [done|]. apply Z.pow_nonneg. lia.
  - apply Z.div_pos; [done|]. apply Z.pow_pos_nonneg; lia.
Qed.

End FloatFacts.

Lemma char_in_lstrip c s :
  PyStr.char_in c s = false → PyStr.char_in c (PyStr.lstrip s) = false.
Proof.
  induction s as [|x s IH]; [done|]. cbn [PyStr.char_in PyStr.lstrip].
  intros [Hx Hs]%orb_false_iff. destruct (PyStr.is_space x); [by apply IH|].
  cbn [PyStr.char_in]. by rewrite Hx, Hs.
Qed.

Lemma char_in_strip c s :
  PyStr.char_in c s = false → PyStr.char_in c (PyStr.strip s) = false.
Proof.
  intros H. unfold PyStr.strip, PyStr.rstrip. rewrite char_in_rev.
  apply char_in_lstrip. rewrite char_in_rev. by apply char_in_lstrip.
Qed.

Lemma sign_no_dash s :
  PyStr.char_in "-" s = false → (PyFloat.sign s).1 = false.
Proof.
  destruct s as [|c r]; [done|].
  destruct c as [[] [] [] [] [] [] [] []]; try done.
Qed.

(** X3. The major version is never negative: the version segment of a split
    branch holds no dash, so [float] reads no minus sign and [int] truncates
    a value that is zero or positive. *)
Theorem major_never_negative (b name version distro : string) (f : pyfloat)
    (major : Z) :
  PyStr.split "-" 2 b = [name; version; distro] →
  PyFloat.of_string version = Ok f →
  PyFloat.to_int f = Ok major →
  (0 ≤ major)%Z.
Proof.
  intros (_ & _ & Hv)%split_three_inv.
  apply (char_in_strip "-") in Hv. apply sign_no_dash in Hv.
  unfold PyFloat.of_string.
  destruct (PyFloat.sign (PyStr.strip version)) as [neg u].
  cbn [fst] in Hv. subst neg.
  destruct (_ || _); [by intros [= <-]|].
  destruct (String.eqb _ "nan"); [by intros [= <-]|].
  destruct (PyFloat.decimal u) as [[m e]|] eqn:Hd; [|done].
  apply decimal_nonneg in Hd. intros [= <-].
  destruct (0 <=? e)%Z eqn:He; [|apply Z.leb_gt in He].
  - destruct (PyFloat.nearest _ _ _) as [neg m' e'| |] eqn:Hn; [|done..].
    apply nearest_sign in Hn as [-> ?]; [by apply to_int_nonneg| |lia].
    apply Z.mul_nonneg_nonneg; [done|]. apply Z.pow_nonneg. lia.
  - destruct (PyFloat.nearest _ _ _) as [neg m' e'| |] eqn:Hn; [|done..].
    apply nearest_sign in Hn as [-> ?]; [by apply to_int_nonneg|done|].
    apply Z.pow_pos_nonneg; lia.
Qed.

Lemma major_never_negative_witness : (0 ≤ 3)%Z.
Proof.
  apply (major_never_negative "ceph-3.0-rhel-7" "ceph" "3.0" "rhel-7"
           (FFinite false 6755399441055744 (-51)) 3).
  - reflexivity.
  - vm_compute. reflexivity.
  - vm_compute. reflexivity.
Defined.

Section WholeNumbers.
Local Open Scope Z_scope.

Lemma round_half_even_1 x : PyFloat.round_half_even x 1 = x.
Proof.
  unfold PyFloat.round_half_even. by rewrite Z.div_1_r, Z.mod_1_r.
Qed.

(** A whole number below 2^53 is a binary64 value: [nearest] keeps it. *)
Lemma nearest_whole neg n :
  0 < n < 2 ^ 53 →
  PyFloat.nearest neg n 1
  = FFinite neg (n * 2 ^ (52 - Z.log2 n)) (Z.log2 n - 52).
Proof.
  intros [Hpos Hlt]. unfold PyFloat.nearest.
  rewrite (proj2 (Z.eqb_neq n 0)) by lia.
  change (Z.log2 1) with 0. rewrite Z.sub_0_r.
  pose proof (Z.log2_nonneg n) as HL0.
  assert (Z.log2 n < 53) as HL1 by (by apply Z.log2_lt_pow2).
  destruct (Z.log2_spec n Hpos) as [Hlo _].
  set (L := Z.log2 n) in *.
  assert (2 ^ 52 ≤ n * 2 ^ (52 - L)) as Hbig.
  { replace (2 ^ 52) with (2 ^ L * 2 ^ (52 - L)).
    - apply Z.mul_le_mono_nonneg_r; [apply Z.pow_nonneg; lia|done].
    - rewrite <- Z.pow_add_r by lia. f_equal. lia. }
  destruct (decide (L = 52)) as [HL|HL].
  - rewrite HL in *. change (52 - 52) with 0 in *.
    unfold PyFloat.scaled. change (0 <=? 0) with true. cbv iota.
    change (1 * 2 ^ 0) with 1. change (2 ^ 0) with 1 in *.
    rewrite Z.mul_1_r in *. rewrite Z.div_1_r.
    rewrite (proj2 (Z.ltb_ge n (2 ^ 52))) by done.
    change (Z.max 0 (-1074)) with 0. change (0 <=? 0) with true. cbv iota.
    change (1 * 2 ^ 0) with 1. rewrite round_half_even_1.
    change (2 ^ 0) with 1. rewrite Z.mul_1_r.
    rewrite (proj2 (Z.leb_gt (2 ^ 1024) n)); [done|].
    eapply Z.lt_trans; [exact Hlt|]. by apply Z.pow_lt_mono_r.
  - assert (L - 52 < 0) as Hc by lia.
    unfold PyFloat.scaled.
    rewrite (proj2 (Z.leb_gt 0 (L - 52))) by done.
    replace (- (L - 52)) with (52 - L) by lia.
    rewrite Z.div_1_r.
    rewrite (proj2 (Z.ltb_ge (n * 2 ^ (52 - L)) (2 ^ 52))) by done.
    rewrite Z.max_l by lia.
    rewrite (proj2 (Z.leb_gt 0 (L - 52))) by done.
    replace (- (L - 52)) with (52 - L) by lia.
    by rewrite round_half_even_1.
Qed.

Lemma to_int_whole neg n :
  0 ≤ n < 2 ^ 53 →
  PyFloat.to_int (PyFloat.nearest neg n 1) = Ok (if neg then - n else n).
Proof.
  intros [Hn Hlt]. destruct (decide (n = 0)) as [->|Hne]; [by destruct neg|].
  rewrite nearest_whole by lia. cbn [PyFloat.to_int].
  pose proof (Z.log2_nonneg n) as HL0.
  assert (Z.log2 n < 53) as HL1 by (apply Z.log2_lt_pow2; lia).
  set (L := Z.log2 n) in *.
  assert (0 < 2 ^ (52 - L)) by (apply Z.pow_pos_nonneg; lia).
  destruct (0 <=? L - 52) eqn:He.
  - apply Z.leb_le in He. assert (L = 52) as -> by lia.
    change (52 - 52) with 0. change (2 ^ 0) with 1. by rewrite !Z.mul_1_r.
  - replace (- (L - 52)) with (52 - L) by lia.
    rewrite Z.div_mul by lia. done.
Qed.

End WholeNumbers.

Lemma digit_chars c d :
  PyFloat.digit c = Some d →
  PyStr.is_space c = false
  ∧ PyFloat.sign (String c "") = (false, String c "")
  ∧ PyStr.lower_char c = c
  ∧ Ascii.eqb c "i" = false ∧ Ascii.eqb c "n" = false.
Proof. destruct c as [[] [] [] [] [] [] [] []]; by intros [=]. Qed.

Lemma digits_all s acc cnt n k c :
  PyFloat.digits s acc cnt = (n, k, "") →
  PyStr.char_in c s = true → is_Some (PyFloat.digit c).
Proof.
  revert acc cnt. induction s as [|x s IH]; intros acc cnt; [done|].
  cbn [PyFloat.digits PyStr.char_in].
  destruct (PyFloat.digit x) as [d|] eqn:Hx; [|done].
  intros Hd [Hc|Hc]%orb_true_iff.
  - apply Ascii.eqb_eq in Hc as ->. by rewrite Hx.
  - by eapply IH.
Qed.

Lemma lstrip_first c r :
  PyStr.is_space c = false → PyStr.lstrip (String c r) = String c r.
Proof. intros H. cbn [PyStr.lstrip]. by rewrite H. Qed.

(** Text made of digits only has nothing to strip. *)
Lemma strip_digits s n k :
  PyFloat.digits s 0 0 = (n, k, "") → PyStr.strip s = s.
Proof.
  intros Hd.
  assert (∀ t, (∀ c, PyStr.char_in c t = true → PyStr.char_in c s = true) →
               PyStr.lstrip t = t) as Hl.
  { intros [|c r] Ht; [done|]. apply lstrip_first.
    destruct (digits_all s 0 0%nat n k c Hd) as [d Hc].
    - apply Ht. cbn [PyStr.char_in]. by rewrite Ascii.eqb_refl.
    - by apply digit_chars in Hc as (? & _). }
  unfold PyStr.strip, PyStr.rstrip. rewrite (Hl s) by done.
  rewrite (Hl (String.rev s)); [apply rev_involutive|].
  intros c. by rewrite char_in_rev.
Qed.

(** X4. A version written as a whole number below 2^53 gives exactly that
    number as the major version: [float] keeps it and [int] returns it. *)
Theorem whole_number_version (version : string) (n : Z) (k : nat) :
  PyFloat.digits version 0 0 = (n, S k, "") →
  (n < 2 ^ 53)%Z →
  PyFloat.of_string version ≫= PyFloat.to_int = Ok n.
Proof.
  intros Hd Hn. unfold PyFloat.of_string. rewrite (strip_digits _ _ _ Hd).
  destruct version as [|c r]; [done|].
  assert (is_Some (PyFloat.digit c)) as [d Hc].
  { apply (digits_all _ _ _ _ _ c Hd). cbn [PyStr.char_in].
    by rewrite Ascii.eqb_refl. }
  apply digit_chars in Hc as (_ & Hs & Hl & Hi & Hnn).
  assert (PyFloat.sign (String c r) = (false, String c r)) as ->.
  { revert Hs. clear. destruct c as [[] [] [] [] [] [] [] []]; by intros [=]. }
  cbn [PyStr.lower PyStr.map]. rewrite Hl.
  assert (∀ t, String.eqb (String c t) "inf" = false) as -> by
    (intros t; cbn [String.eqb]; by rewrite Hi).
  assert (∀ t, String.eqb (String c t) "infinity" = false) as -> by
    (intros t; cbn [String.eqb]; by rewrite Hi).
  assert (∀ t, String.eqb (String c t) "nan" = false) as -> by
    (intros t; cbn [String.eqb]; by rewrite Hnn).
  cbn [orb]. rewrite decimal_halves, Hd. cbn [fraction].
  change (exponent (S k) n 0 "") with (Some (n, 0%Z)).
  change (0 <=? 0)%Z with true. cbv iota.
  change (10 ^ 0)%Z with 1%Z. rewrite Z.mul_1_r.
  cbn [mbind outcome_bind]. apply (to_int_whole false).
  split; [|done]. by eapply (digits_nonneg _ 0%Z), Hd.
Qed.

Lemma whole_number_version_witness :
  PyFloat.of_string "3" ≫= PyFloat.to_int = Ok 3%Z.
Proof.
  apply (whole_number_version "3" 3 0).
  - reflexivity.
  - reflexivity.
Defined.

(** ** Templates: what [%] does with them in the branch tier *)



(** X5. In the branch tier a template that holds no [%] at all is returned
    as it is: the fields of the branch are not used. *)
Theorem template_returned_verbatim (d : gmap string value)
    (b template : string) :
  d !! "compose_url" = None →
  d !! "branch" = Some (VStr b) →
  converts b →
  PyStr.char_in "%" template = false →
  parse_ci_message (VDict d) (Some template) = Ok (VStr template).
Proof.
  intros Hu Hb (n & v & ds & f & z & Hs & Hf & Hz) Ht.
  rewrite (branch_tier d b n v ds f z) by done. cbn [py_mod].
  pose proof (format_render b z (PyStr.upper ds) [Lit template]) as Hr.
  cbn [render interpolate piece_text fill] in Hr.
  rewrite !app_nil_r in Hr. rewrite Hr; [done|]. by repeat constructor.
Qed.

Lemma template_returned_verbatim_witness :
  parse_ci_message (VDict {["branch" := VStr "ceph-3.0-rhel-7"]})
    (Some "http://example.com/latest")
  = Ok (VStr "http://example.com/latest").
Proof.
  apply (template_returned_verbatim {["branch" := VStr "ceph-3.0-rhel-7"]}
           "ceph-3.0-rhel-7" "http://example.com/latest").
  - reflexivity.
  - reflexivity.
  - exists "ceph", "3.0", "rhel-7", (FFinite false 6755399441055744 (-51)), 3%Z.
    split; [reflexivity|]. split; vm_compute; reflexivity.
  - reflexivity.
Defined.





(** ** BranchResolver and the resolver together *)

Lemma dash_lower s : PyStr.char_in "-" (PyStr.lower s) = PyStr.char_in "-" s.
Proof.
  induction s as [|c s IH]; [done|].
  cbn [PyStr.lower PyStr.map PyStr.char_in]. fold (PyStr.lower s).
  rewrite IH. f_equal. by destruct c as [[] [] [] [] [] [] [] []].
Qed.

Lemma get_branch_shape (c : compose) :
  ∃ family version,
    get_branch c = Ok (family +:+ "-" +:+ version +:+ "-rhel-7")
    ∧ (family = "ceph" ∨ family = PyStr.lower (release_short c))
    ∧ (version = "2" ∨ version = release_version c).
Proof.
  unfold get_branch.
  destruct (String.eqb (PyStr.lower (release_short c)) "rhceph");
    match goal with
    | |- context [if ?x && ?y then _ else _] => destruct (x && y)
    end;
    eexists _, _; (split; [reflexivity|]); auto.
Qed.

(** X8. The branch that [get_branch] names for a compose can be read back
    by the resolver: when family and version hold no dash, it splits into
    family, version and "rhel-7", the version being 2 or the release
    version and the family "ceph" or the release family in small letters
    (by the table of [Letters], the letters of Latin-1 included). *)
Theorem branch_splits_back (c : compose) (b : string) :
  PyStr.char_in "-" (release_short c) = false →
  PyStr.char_in "-" (release_version c) = false →
  get_branch c = Ok b →
  ∃ family version,
    PyStr.split "-" 2 b = [family; version; "rhel-7"]
    ∧ (family = "ceph" ∨ family = Letters.lowercase (release_short c))
    ∧ (version = "2" ∨ version = release_version c).
Proof.
  intros Hs Hv Hb.
  destruct (get_branch_shape c) as (family & version & Hg & Hf & Hver).
  rewrite Hg in Hb. injection Hb as <-. exists family, version.
  rewrite <- lower_lowercase.
  split; [|done]. apply (split_three family version "rhel-7").
  - destruct Hf as [->| ->]; [done|]. by rewrite dash_lower.
  - by destruct Hver as [->| ->].
Qed.

Lemma branch_splits_back_witness :
  ∃ family version,
    PyStr.split "-" 2 "ceph-2-rhel-7" = [family; version; "rhel-7"]
    ∧ (family = "ceph" ∨ family = Letters.lowercase "RHCEPH")
    ∧ (version = "2" ∨ version = "2.5").
Proof.
  apply (branch_splits_back
           {| release_short := "RHCEPH"; release_version := "2.5";
              compose_id := "RHCEPH-2.5-RHEL-7-20180101.0";
              base_product := None |} "ceph-2-rhel-7").
  - reflexivity.
  - reflexivity.
  - reflexivity.
Defined.

(** ** BuildOrchestrator: what a run does and leaves behind *)









(** X10. When nothing names a compose (no [--compose], a message that is
    not JSON, COMPOSE_URL unset or empty), [main] stops with [SystemExit]
    before it logs, writes or asks any collaborator anything. *)
Theorem no_compose_exits (C : collaborators)
    (json_loads : string → option value) (env : environ) (w : world) :
  json_loads (default "" (CI_MESSAGE env)) = None →
  COMPOSE_URL env = None ∨ COMPOSE_URL env = Some "" →
  main C json_loads None env w
  = (Raise (SystemExit "Please set the CI_MESSAGE env var or use --compose arg"),
     w).
Proof.
  intros Hl Hu.
  unfold main, build_stage, parse_args, compose_url_from_env_logged.
  rewrite Hl. by destruct Hu as [-> | ->].
Qed.

Lemma no_compose_exits_witness :
  main DemoRun.C Sample.json_loads None
    {| COMPOSE_URL := Some ""; CI_MESSAGE := None; WORKSPACE := None |}
    empty_world
  = (Raise (SystemExit "Please set the CI_MESSAGE env var or use --compose arg"),
     empty_world).
Proof.
  apply (no_compose_exits DemoRun.C Sample.json_loads
           {| COMPOSE_URL := Some ""; CI_MESSAGE := None; WORKSPACE := None |}
           empty_world).
  - reflexivity.
  - right. reflexivity.
Defined.

(** X11. The default of [--compose] is computed from the environment even
    when the argument is given: a message that is JSON but not an object
    stops every run with [TypeError], also one that names its compose on
    the command line.  The run has then logged the one line that
    [parse_ci_message] writes before it looks into the message, and has
    written nothing. *)
Theorem stray_message_stops_every_run (C : collaborators)
    (json_loads : string → option value) (cli : option string)
    (env : environ) (w : world) (v : value) :
  json_loads (default "" (CI_MESSAGE env)) = Some v →
  is_mapping v = false →
  main C json_loads cli env w
  = (Raise TypeError,
     {| writes := writes w;
        logged := logged w ++ [("Parsing CI_MESSAGE: %s", [v])];
        tmpdirs := tmpdirs w |}).
Proof.
  intros Hl Hv.
  unfold main, build_stage, parse_args, compose_url_from_env_logged.
  rewrite Hl. unfold parse_ci_message_logged. by destruct v.
Qed.

Lemma stray_message_stops_every_run_witness :
  main DemoRun.C Sample.json_loads (Some "http://example.com/foo")
    (Sample.env None (Some "5")) empty_world
  = (Raise TypeError,
     {| writes := [];
        logged := [("Parsing CI_MESSAGE: %s", [VInt 5])];
        tmpdirs := 0 |}).
Proof.
  apply (stray_message_stops_every_run DemoRun.C Sample.json_loads
           (Some "http://example.com/foo") (Sample.env None (Some "5"))
           empty_world (VInt 5)).
  - reflexivity.
  - reflexivity.
Defined.

(** X12. The compose URL of a run whose build stage completes is never
    null; it is the command-line argument when one is given, and otherwise
    what the environment resolves to. *)
Theorem compose_url_of_a_run (C : collaborators)
    (json_loads : string → option value) (cli : option string)
    (env : environ) (w0 w1 : world) (compose_url : value) (p : publisher)
    (c : compose) (result : gmap string value) :
  build_stage C json_loads cli env w0 = (Ok (compose_url, p, c, result), w1) →
  compose_url ≠ VNone
  ∧ match cli with
    | Some url => compose_url = VStr url
    | None => compose_url_from_env json_loads env = Ok compose_url
    end.
Proof.
  intros Hb. unfold build_stage in Hb.
  bind_inv Hb. rename Hc into Hargs.
  bind_inv Hb. apply lift_ok in Hc as [Hnone ->].
  do 11 bind_inv Hb. injection Hb as <- _ _ _ _.
  split; [by intros ->|].
  destruct (parse_args_run json_loads cli env w0) as [lines Hrun].
  rewrite Hrun in Hargs.
  destruct (compose_url_from_env json_loads env) as [from_env|]; [|done].
  injection Hargs as <- _. by destruct cli.
Qed.

Lemma compose_url_of_a_run_witness :
  VStr "http://example.com/foo" ≠ VNone
  ∧ compose_url_from_env Sample.json_loads (Demo.env None)
    = Ok (VStr "http://example.com/foo").
Proof.
  apply (compose_url_of_a_run DemoRun.C Sample.json_loads None (Demo.env None)
           empty_world DemoRun.after_build (VStr "http://example.com/foo")
           DemoRun.the_publisher DemoRun.based_compose DemoRun.result).
  vm_compute. reflexivity.
Defined.





(** The last character of a text. *)
Fixpoint last_char (s : string) : option ascii :=
  match s with
  | EmptyString => None
  | String c EmptyString => Some c
  | String _ r => last_char r
  end.

Lemma last_char_app a c r : last_char (a +:+ String c r) = last_char (String c r).
Proof.
  induction a as [|x a IH]; [done|]. rewrite app_cons.
  cbn [last_char]. rewrite IH.
  destruct (a +:+ String c r) eqn:Ha; [|done].
  by destruct a.
Qed.

Lemma last_char_path_join a c r :
  last_char (path_join a (String c r)) = last_char (String c r).
Proof.
  unfold path_join. destruct (PyStr.startswith _ _); [done|].
  destruct (_ || _); [apply last_char_app|].
  change (a +:+ "/" +:+ String c r) with (a +:+ String "/" (String c r)).
  rewrite last_char_app. done.
Qed.

(** X15. The properties file can never take the place of the JSON metadata
    file: whatever the temporary directory, the compose identifier and the
    workspace are, the two paths differ. *)
Theorem props_path_differs (dir id workspace : string) :
  path_join dir (id +:+ "-osbs.json") ≠ path_join workspace "osbs.props".
Proof.
  intros Heq. apply (f_equal last_char) in Heq. revert Heq.
  rewrite (last_char_path_join workspace "o" "sbs.props").
  destruct id as [|c id].
  - rewrite app_nil_l, (last_char_path_join dir "-" "osbs.json"). done.
  - rewrite app_cons, last_char_path_join, <- app_cons.
    change (String c id +:+ "-osbs.json")
      with (String c id +:+ String "-" "osbs.json").
    rewrite last_char_app. done.
Qed.

(** X16. Every build that [build_container] submits is a scratch build of
    the given branch with the one published repository URL; its parent
    build is [None] when no parent image is configured, and otherwise what
    the registry, found under the configuration key registry/url, resolved
    the parent image to. *)
Theorem build_submission (C : collaborators) (repo_url : value)
    (branch : string) (parent_image : value) (configp : Config C)
    (w w' : world) (result : gmap string value) :
  build_container C repo_url branch parent_image configp w = (Ok result, w') →
  ∃ koji scm target parent task_id,
    koji_build_container C koji scm target branch [repo_url] true parent
    = Ok task_id
    ∧ result !! "koji_task" = Some task_id
    ∧ if truthy parent_image
      then ∃ url registry,
          config_lookup C configp "registry" "url" true = Ok url
          ∧ new_Registry C url = Ok registry
          ∧ registry_build C registry parent_image = Ok parent
      else parent = VNone.
Proof.
  intros Hrun. unfold build_container in Hrun.
  do 5 bind_inv Hrun. bind_inv Hrun. rename a4 into parent, Hc4 into Hparent.
  do 6 bind_inv Hrun. injection Hrun as <- <-.
  repeat match goal with
         | H : lift _ _ = (Ok _, _) |- _ => apply lift_ok in H as [H ->]
         end.
  match goal with
  | H : koji_build_container C ?k ?s ?t _ _ _ ?p = Ok ?i |- _ =>
      exists k, s, t, p, i
  end.
  split; [done|]. split; [apply collect_result_collected|].
  destruct (truthy parent_image).
  - apply lift_ok in Hparent as [Hparent _].
    destruct (config_lookup C configp "registry" "url" true) as [url|];
      [|done].
    cbn [mbind outcome_bind] in Hparent.
    destruct (new_Registry C url) as [registry|] eqn:Hreg; [|done].
    by exists url, registry.
  - by injection Hparent as <- _.
Qed.

Lemma build_submission_witness :
  ∃ koji scm target parent task_id,
    koji_build_container DemoRun.C koji scm target "ceph-3.0-rhel-7"
      [VStr "http://example.com/published/tmp/tmp0/rhceph.repo"] true parent
    = Ok task_id
    ∧ collect_result (VInt 1234) Demo.one_repo !! "koji_task" = Some task_id
    ∧ if truthy VNone
      then ∃ url registry,
          config_lookup DemoRun.C () "registry" "url" true = Ok url
          ∧ new_Registry DemoRun.C url = Ok registry
          ∧ registry_build DemoRun.C registry VNone = Ok parent
      else parent = VNone.
Proof.
  apply (build_submission DemoRun.C
           (VStr "http://example.com/published/tmp/tmp0/rhceph.repo")
           "ceph-3.0-rhel-7" VNone () empty_world
           {| writes := [];
              logged := [("Building container at %s",
                          [VStr "https://koji.example.com/kojihub"])];
              tmpdirs := 0 |}).
  vm_compute. reflexivity.
Defined.

(** ** The major version of a version with a fraction *)

Section Truncation.
Local Open Scope Z_scope.

Lemma round_half_even_bounds num den :
  let q := num / den in
  q ≤ PyFloat.round_half_even num den ≤ q + 1.
Proof.
  unfold PyFloat.round_half_even. cbv zeta.
  destruct (_ ?= _); [destruct (Z.even _)|..]; lia.
Qed.

(** For a quotient below 2^32 with a denominator below 2^21, the binary64
    value nearest to num/den still truncates to the integer quotient. *)
Lemma to_int_nearest num den :
  0 ≤ num → 0 < den < 2 ^ 21 → num / den < 2 ^ 32 →
  PyFloat.to_int (PyFloat.nearest false num den) = Ok (num / den).
Proof.
  intros Hnum [Hden Hsmall] Hq. unfold PyFloat.nearest.
  destruct (num =? 0) eqn:H0.
  { apply Z.eqb_eq in H0 as ->. cbn [PyFloat.to_int]. by rewrite Z.div_0_l by lia. }
  apply Z.eqb_neq in H0. assert (0 < num) as Hpos by lia.
  assert (num < 2 ^ 32 * den) as Hub.
  { pose proof (Z.mul_succ_div_gt num den Hden).
    change (2 ^ 32) with 4294967296 in *. nia. }
  set (c := Z.log2 num - Z.log2 den - 52).
  assert (c ≤ -20) as Hc.
  { destruct (Z.log2_spec den Hden) as [_ Hd].
    assert (Z.log2 num < 33 + Z.log2 den); [|lia].
    apply Z.log2_lt_pow2; [done|].
    pose proof (Z.log2_nonneg den).
    replace (33 + Z.log2 den) with (32 + Z.succ (Z.log2 den)) by lia.
    rewrite Z.pow_add_r by lia.
    eapply Z.lt_trans; [exact Hub|].
    apply Z.mul_lt_mono_pos_l; [by apply Z.pow_pos_nonneg|done]. }
  destruct (PyFloat.scaled num den c) as [n0 d0] eqn:Hs0.
  set (k0 := if n0 / d0 <? 2 ^ 52 then c - 1 else c).
  assert (k0 ≤ -21) as Hk0.
  { subst k0. destruct (n0 / d0 <? 2 ^ 52) eqn:Hlt; [lia|].
    apply Z.ltb_ge in Hlt. destruct (decide (c = -20)) as [Hc20|]; [|lia].
    exfalso. unfold PyFloat.scaled in Hs0. rewrite Hc20 in Hs0.
    change (0 <=? -20) with false in Hs0. change (- -20) with 20 in Hs0.
    injection Hs0 as <- <-.
    assert (num * 2 ^ 20 / den < 2 ^ 52); [|lia].
    apply Z.div_lt_upper_bound; [done|].
    change (2 ^ 52) with (2 ^ 32 * 2 ^ 20). change (2 ^ 20) with 1048576.
    change (2 ^ 32) with 4294967296 in *. lia. }
  set (k := Z.max k0 (-1074)).
  assert (-1074 ≤ k ≤ -21) as Hk by lia.
  unfold PyFloat.scaled.
  rewrite (proj2 (Z.leb_gt 0 k)) by lia.
  change (false && _) with false. cbv iota.
  cbn [PyFloat.to_int]. rewrite (proj2 (Z.leb_gt 0 k)) by lia. f_equal.
  set (P := 2 ^ (- k)).
  assert (2 ^ 21 ≤ P) as HP by (apply Z.pow_le_mono_r; lia).
  assert (0 < P) as HP0 by (apply Z.pow_pos_nonneg; lia).
  pose proof (round_half_even_bounds (num * P) den) as Hm. cbv zeta in Hm.
  set (m := PyFloat.round_half_even (num * P) den) in *.
  set (N := num / den) in *.
  assert (N * den ≤ num < (N + 1) * den) as [HN1 HN2].
  { pose proof (Z.mul_div_le num den Hden).
    pose proof (Z.mul_succ_div_gt num den Hden). subst N. lia. }
  assert (N * P ≤ num * P / den) as Hlow.
  { apply Z.div_le_lower_bound; [done|]. nia. }
  assert (num * P / den < (N + 1) * P - 1) as Hup.
  { apply Z.div_lt_upper_bound; [done|]. nia. }
  symmetry. apply Z.div_unique with (r := m - N * P).
  - left. lia.
  - lia.
Qed.

End Truncation.

Lemma digits_run s acc cnt n k rest :
  PyFloat.digits s acc cnt = (n, k, rest) →
  ∃ pre j,
    s = pre +:+ rest ∧ k = (cnt + j)%nat
    ∧ (∀ c, PyStr.char_in c pre = true → is_Some (PyFloat.digit c))
    ∧ (acc * 10 ^ Z.of_nat j ≤ n < (acc + 1) * 10 ^ Z.of_nat j)%Z.
Proof.
  revert acc cnt. induction s as [|x s IH]; intros acc cnt.
  - intros [= <- <- <-]. exists "", 0%nat.
    repeat split; [lia|done|lia..].
  - cbn [PyFloat.digits]. destruct (PyFloat.digit x) as [d|] eqn:Hx.
    + intros (pre & j & -> & -> & Hpre & Hn)%IH. exists (String x pre), (S j).
      apply digit_range in Hx as Hd.
      repeat split; [lia| | |].
      * intros c. cbn [PyStr.char_in]. intros [Hc|Hc]%orb_true_iff; [|auto].
        apply Ascii.eqb_eq in Hc as ->. by rewrite Hx.
      * rewrite Nat2Z.inj_succ, Z.pow_succ_r by lia. nia.
      * rewrite Nat2Z.inj_succ, Z.pow_succ_r by lia. nia.
    + intros [= <- <- <-]. exists "", 0%nat.
      repeat split; [lia|done|lia..].
Qed.

Lemma lstrip_keeps s :
  (∀ c, PyStr.char_in c s = true → PyStr.is_space c = false) →
  PyStr.lstrip s = s.
Proof.
  destruct s as [|c r]; [done|]. intros H. apply lstrip_first, H.
  cbn [PyStr.char_in]. by rewrite Ascii.eqb_refl.
Qed.

Lemma strip_keeps s :
  (∀ c, PyStr.char_in c s = true → PyStr.is_space c = false) →
  PyStr.strip s = s.
Proof.
  intros H. unfold PyStr.strip, PyStr.rstrip. rewrite (lstrip_keeps s) by done.
  rewrite lstrip_keeps; [apply rev_involutive|].
  intros c. rewrite char_in_rev. apply H.
Qed.

Lemma char_in_app c a b :
  PyStr.char_in c (a +:+ b) = PyStr.char_in c a || PyStr.char_in c b.
Proof.
  induction a as [|x a IH]; [done|]. rewrite app_cons.
  cbn [PyStr.char_in]. rewrite IH. apply orb_assoc.
Qed.

(** X17. A version written as whole part, point and at most six digits of
    fraction, with a whole part below 2^32, gives its whole part as the
    major version: 3.0 gives 3 and 2.5 gives 2. *)
Theorem fraction_is_dropped (version frac : string) (whole m : Z)
    (ni nf : nat) :
  PyFloat.digits version 0 0 = (whole, S ni, String "." frac) →
  PyFloat.digits frac whole 0 = (m, nf, "") →
  (whole < 2 ^ 32)%Z →
  nf ≤ 6 →
  PyFloat.of_string version ≫= PyFloat.to_int = Ok whole.
Proof.
  intros Hw Hf Hlt Hnf.
  destruct (digits_run _ _ _ _ _ _ Hw) as (pre & j & Hv & Hj & Hpre & Hwb).
  destruct (digits_run _ _ _ _ _ _ Hf) as (fr & j' & Hfr & Hj' & Hfrd & Hmb).
  rewrite app_nil_r in Hfr. subst fr. cbn [Nat.add] in Hj, Hj'. subst j'.
  assert (0 ≤ whole)%Z as Hw0 by by eapply (digits_nonneg _ 0%Z), Hw.
  assert (PyStr.strip version = version) as Hstrip.
  { apply strip_keeps. intros c. rewrite Hv, char_in_app.
    cbn [PyStr.char_in]. intros [Hc|[Hc|Hc]%orb_true_iff]%orb_true_iff.
    - destruct (Hpre c Hc) as [d Hd]. by apply digit_chars in Hd as (? & _).
    - by apply Ascii.eqb_eq in Hc as ->.
    - destruct (Hfrd c Hc) as [d Hd]. by apply digit_chars in Hd as (? & _). }
  unfold PyFloat.of_string. rewrite Hstrip.
  destruct version as [|c r]; [done|].
  assert (is_Some (PyFloat.digit c)) as [d Hc].
  { generalize Hw. cbn [PyFloat.digits].
    destruct (PyFloat.digit c); [eauto|done]. }
  apply digit_chars in Hc as (_ & Hs & Hl & Hi & Hnn).
  assert (PyFloat.sign (String c r) = (false, String c r)) as ->.
  { revert Hs. clear. destruct c as [[] [] [] [] [] [] [] []]; by intros [=]. }
  cbn [PyStr.lower PyStr.map]. rewrite Hl.
  assert (∀ t, String.eqb (String c t) "inf" = false) as -> by
    (intros t; cbn [String.eqb]; by rewrite Hi).
  assert (∀ t, String.eqb (String c t) "infinity" = false) as -> by
    (intros t; cbn [String.eqb]; by rewrite Hi).
  assert (∀ t, String.eqb (String c t) "nan" = false) as -> by
    (intros t; cbn [String.eqb]; by rewrite Hnn).
  cbn [orb]. rewrite decimal_halves, Hw.
  change (fraction whole (String "." frac)) with (PyFloat.digits frac whole 0).
  rewrite Hf.
  change (exponent (S ni) m nf "") with (Some (m, (- Z.of_nat nf)%Z)).
  cbv beta iota.
  assert (1 ≤ 10 ^ Z.of_nat nf < 2 ^ 21)%Z as Hden.
  { split;
      [assert (0 < 10 ^ Z.of_nat nf)%Z by (apply Z.pow_pos_nonneg; lia); lia|].
    eapply Z.le_lt_trans; [apply (Z.pow_le_mono_r 10 _ 6); lia|done]. }
  assert (m / 10 ^ Z.of_nat nf = whole)%Z as Hdiv.
  { symmetry. apply Z.div_unique with (r := (m - whole * 10 ^ Z.of_nat nf)%Z);
      [left|]; lia. }
  destruct (0 <=? - Z.of_nat nf)%Z eqn:He.
  - apply Z.leb_le in He. assert (nf = 0%nat) as -> by lia.
    change (- Z.of_nat 0)%Z with 0%Z. change (10 ^ 0)%Z with 1%Z.
    change (10 ^ Z.of_nat 0)%Z with 1%Z in *. rewrite Z.mul_1_r.
    cbn [mbind outcome_bind]. rewrite to_int_nearest by lia.
    by rewrite Hdiv.
  - rewrite Z.opp_involutive. cbn [mbind outcome_bind].
    rewrite to_int_nearest by lia. by rewrite Hdiv.
Qed.

Lemma fraction_is_dropped_witness :
  PyFloat.of_string "2.5" ≫= PyFloat.to_int = Ok 2%Z.
Proof.
  apply (fraction_is_dropped "2.5" "5" 2 25 0 1).
  - reflexivity.
  - reflexivity.
  - reflexivity.
  - lia.
Defined.

(** ** The compose and the metadata of a run *)

(** X18. The compose that [get_compose] returns carries the base product
    of the configuration section named after its own branch: the section
    is branch-base, its url is required, and the parent image that the
    build later reads from the compose is the parent_image of that
    section. *)
Theorem base_product_section (C : collaborators) (compose_url : value)
    (configp : Config C) (c : compose) :
  get_compose C compose_url configp = Ok c →
  ∃ b url gpgkey extras parent,
    get_branch c = Ok b
    ∧ config_lookup C configp (b +:+ "-base") "url" true = Ok url
    ∧ config_lookup C configp (b +:+ "-base") "gpgkey" false = Ok gpgkey
    ∧ config_lookup C configp (b +:+ "-base") "extras" false = Ok extras
    ∧ config_lookup C configp (b +:+ "-base") "parent_image" false = Ok parent
    ∧ base_product c = Some (url, gpgkey, extras, parent)
    ∧ parent_image c = Ok parent.
Proof.
  unfold get_compose.
  destruct (config_items C configp "keys" ∅) as [keys|]; [|done].
  cbn [mbind outcome_bind].
  destruct (RepoCompose C compose_url keys) as [c0|]; [|done].
  cbn [mbind outcome_bind].
  destruct (get_branch c0) as [b|] eqn:Hb; [|done]. cbn [mbind outcome_bind].
  destruct (config_lookup C configp (b +:+ "-base") "url" true) as [url|] eqn:H1;
    [|done].
  cbn [mbind outcome_bind].
  destruct (config_lookup C configp (b +:+ "-base") "gpgkey" false)
    as [gpgkey|] eqn:H2; [|done].
  cbn [mbind outcome_bind].
  destruct (config_lookup C configp (b +:+ "-base") "extras" false)
    as [extras|] eqn:H3; [|done].
  cbn [mbind outcome_bind].
  destruct (config_lookup C configp (b +:+ "-base") "parent_image" false)
    as [parent|] eqn:H4; [|done].
  intros [= <-]. exists b, url, gpgkey, extras, parent.
  split; [exact Hb|done].
Qed.

Lemma base_product_section_witness :
  ∃ b url gpgkey extras parent,
    get_branch DemoRun.based_compose = Ok b
    ∧ config_lookup DemoRun.C () (b +:+ "-base") "url" true = Ok url
    ∧ config_lookup DemoRun.C () (b +:+ "-base") "gpgkey" false = Ok gpgkey
    ∧ config_lookup DemoRun.C () (b +:+ "-base") "extras" false = Ok extras
    ∧ config_lookup DemoRun.C () (b +:+ "-base") "parent_image" false
      = Ok parent
    ∧ base_product DemoRun.based_compose = Some (url, gpgkey, extras, parent)
    ∧ parent_image DemoRun.based_compose = Ok parent.
Proof.
  apply (base_product_section DemoRun.C (VStr "http://example.com/foo") ()).
  vm_compute. reflexivity.
Defined.


Lemma four_entries (key : string) (r task_id compose_url id : value) :
  key = "repository" ∨ key = "repositories" →
  let m : gmap string value :=
    <["compose_id" := id]>
      (<["compose_url" := compose_url]>
         (<[key := r]> {["koji_task" := task_id]})) in
  dom m = ({["compose_id"; "compose_url"; "koji_task"; key]} : gset string)
  ∧ size m = 4.
Proof.
  intros Hkey m. subst m. split.
  - rewrite !dom_insert_L, dom_singleton_L. apply set_eq. intros x.
    rewrite !elem_of_union, !elem_of_singleton. tauto.
  - assert (key ≠ "koji_task" ∧ key ≠ "compose_url" ∧ key ≠ "compose_id")
      as (H1 & H2 & H3) by (destruct Hkey as [-> | ->]; done).
    rewrite map_size_insert_None.
    2: { rewrite lookup_insert_ne by done. rewrite lookup_insert_ne by done.
         by rewrite lookup_singleton_ne. }
    rewrite map_size_insert_None.
    2: { rewrite lookup_insert_ne by done. by rewrite lookup_singleton_ne. }
    rewrite map_size_insert_None by (by rewrite lookup_singleton_ne).
    by rewrite map_size_singleton.
Qed.

(** X19. The metadata of a run has exactly four entries: the compose
    identifier, the compose URL, the task, and one of "repository" and
    "repositories"; nothing else reaches the JSON file or the properties
    file. *)
Theorem metadata_has_four_keys (C : collaborators)
    (json_loads : string → option value) (cli : option string)
    (env : environ) (w0 w1 : world) (compose_url : value) (p : publisher)
    (c : compose) (result : gmap string value) :
  build_stage C json_loads cli env w0 = (Ok (compose_url, p, c, result), w1) →
  let metadata := assemble_metadata result compose_url c in
  ∃ key,
    (key = "repository" ∨ key = "repositories")
    ∧ dom metadata
      = ({["compose_id"; "compose_url"; "koji_task"; key]} : gset string)
    ∧ size metadata = 4
    ∧ length (sorted_items metadata) = 4.
Proof.
  intros Hb metadata.
  assert (∃ task_id repos, result = collect_result task_id repos)
    as (task_id & repos & ->).
  { unfold build_stage in Hb. do 13 bind_inv Hb.
    injection Hb as <- <- <- <- <-.
    match goal with
    | Hr : build_container _ _ _ _ _ _ = _ |- _ =>
        apply build_container_collects in Hr as (? & t & rs & _ & ->)
    end.
    by exists t, rs. }
  assert (∃ key,
            (key = "repository" ∨ key = "repositories")
            ∧ dom metadata
              = ({["compose_id"; "compose_url"; "koji_task"; key]}
                 : gset string)
            ∧ size metadata = 4) as (key & Hkey & Hdom & Hsize).
  { subst metadata. unfold assemble_metadata, collect_result.
    destruct repos as [|r [|r' rs]].
    - exists "repositories". split; [by right|].
      apply (four_entries "repositories"). by right.
    - exists "repository". split; [by left|].
      apply (four_entries "repository"). by left.
    - exists "repositories". split; [by right|].
      apply (four_entries "repositories"). by right. }
  exists key. repeat split; [done..|].
  by rewrite sorted_items_perm, length_map_to_list.
Qed.

Lemma metadata_has_four_keys_witness :
  ∃ key,
    (key = "repository" ∨ key = "repositories")
    ∧ dom (assemble_metadata DemoRun.result (VStr "http://example.com/foo")
             DemoRun.based_compose)
      = ({["compose_id"; "compose_url"; "koji_task"; key]} : gset string)
    ∧ size (assemble_metadata DemoRun.result (VStr "http://example.com/foo")
              DemoRun.based_compose) = 4
    ∧ length (sorted_items
                (assemble_metadata DemoRun.result
                   (VStr "http://example.com/foo") DemoRun.based_compose)) = 4.
Proof.
  apply (metadata_has_four_keys DemoRun.C Sample.json_loads None
           (Demo.env None) empty_world DemoRun.after_build
           (VStr "http://example.com/foo") DemoRun.the_publisher
           DemoRun.based_compose DemoRun.result).
  vm_compute. reflexivity.
Defined.

Lemma props_path_differs_witness :
  path_join "/tmp/tmp0.json" ("RHCEPH-3.0-RHEL-7-20180101.0" +:+ "-osbs.json")
  ≠ path_join "/tmp/tmp0.json" "osbs.props".
Proof.
  exact (props_path_differs "/tmp/tmp0.json" "RHCEPH-3.0-RHEL-7-20180101.0"
           "/tmp/tmp0.json").
Defined.
